(** * rl_rebalancer: a shallow embedding of the DQN rebalancer

    The development follows [rl_rebalancer.py]: the replay buffer, the
    [MultiGridEnv] simulation (reset, step, trade), and the agent's replay
    step with its exploration schedule.

    Numeric conventions.
    - Valuations, unit counts and cash of the environment are exact
      integers ([Z]): the trade logic only adds, subtracts, multiplies and
      compares, which float64 performs exactly on integer-valued data of
      realistic size.
    - The agent's scalars ([epsilon], [gamma]) are IEEE binary64 numbers,
      the primitive [float] of Rocq, so the exploration schedule is
      computed bit for bit as CPython computes it.
    - Python exceptions are values of [exn]; a [while] loop is run with a
      bound on its number of passes and reports [OutOfFuel] when the bound
      is reached. *)

From Stdlib Require Import ZArith Lia PrimFloat.
From stdpp Require Import base list strings.

Set Warnings "-inexact-float".
Local Open Scope Z_scope.

(** ** Python results *)

Inductive exn := IndexError | AssertionError | ValueError.

Inductive result (A : Type) :=
| Ok (a : A)
| Raise (e : exn)
| OutOfFuel.

Arguments Ok {A} a.
Arguments Raise {A} e.
Arguments OutOfFuel {A}.

Global Instance result_ret : MRet result := fun A a => Ok a.

Global Instance result_bind : MBind result := fun A B k m =>
  match m with
  | Ok a => k a
  | Raise e => Raise e
  | OutOfFuel => OutOfFuel
  end.

(** [a[i]] for a non-negative index held in a loop variable. *)
Definition getitem {A} (l : list A) (i : nat) : result A :=
  match l !! i with
  | Some x => Ok x
  | None => Raise IndexError
  end.

(** [l[i]] on a Python list for an arbitrary integer: a negative index
    counts from the end. *)
Definition py_getitem {A} (l : list A) (i : Z) : result A :=
  if 0 <=? i then getitem l (Z.to_nat i)
  else if 0 <=? Z.of_nat (length l) + i
       then getitem l (Z.to_nat (Z.of_nat (length l) + i))
       else Raise IndexError.

(** ** itertools.product with [repeat]

    The documented equivalent of the library function:
    [result = [[]]; for pool in pools: result = [x+[y] for x in result for y in pool]]. *)

Definition product_step {A} (pool : list A) (res : list (list A)) : list (list A) :=
  flat_map (fun x => map (fun y => x ++ [y]) pool) res.

Definition itertools_product {A} (pool : list A) (repeat : nat) : list (list A) :=
  fold_left (fun res p => product_step p res) (replicate repeat pool) [[]].

(** [list(map(list, itertools.product([0, 1, 2], repeat=n_grid)))] *)
Definition make_action_list (n_grid : nat) : list (list Z) :=
  itertools_product [0; 1; 2] n_grid.

(** [np.arange(3**n_grid)] *)
Definition make_action_space (n_grid : nat) : list Z :=
  map Z.of_nat (seq 0 (3 ^ n_grid)).

(** The integer read off an action vector as base-3 digits, most
    significant unit first. *)
Definition encode (vec : list Z) : Z :=
  fold_left (fun acc d => 3 * acc + d) vec 0.

Definition digit (d : Z) : Prop := d = 0 \/ d = 1 \/ d = 2.

(** ** MultiGridEnv *)

Record MultiGridEnv := {
  grid_demand_history : list (list Z);
  n_step : nat;
  n_grid : nat;
  initial_investment : Z;
  cur_step : nat;
  grid_owned : list Z;
  grid_demand : list Z;
  vehicle_in_hand : Z;
  action_space : list Z;
  action_list : list (list Z);
  state_dim : nat
}.

(** [a.dot(b)] on one-dimensional arrays. *)
Fixpoint dot (a b : list Z) : result Z :=
  match a, b with
  | [], [] => Ok 0
  | x :: a', y :: b' => s ← dot a' b'; Ok (x * y + s)
  | _, _ => Raise ValueError
  end.

(** [_get_obs]: the three slice assignments fill an array of length
    [state_dim = 2 * n_grid + 1] with the owned counts, the valuations and
    the cash. The arrays assigned always have [n_grid] elements; any other
    shape, which numpy would reject or broadcast, is reported as
    [ValueError]. *)
Definition _get_obs (env : MultiGridEnv) : result (list Z) :=
  if bool_decide (length (grid_owned env) = n_grid env
                  /\ length (grid_demand env) = n_grid env
                  /\ state_dim env = (n_grid env * 2 + 1)%nat)
  then Ok (grid_owned env ++ grid_demand env ++ [vehicle_in_hand env])
  else Raise ValueError.

Definition _get_val (env : MultiGridEnv) : result Z :=
  s ← dot (grid_owned env) (grid_demand env);
  Ok (s + vehicle_in_hand env).

(** [reset]: back to step 0 with nothing owned and the initial cash. *)
Definition reset (env : MultiGridEnv) : result (MultiGridEnv * list Z) :=
  row ← getitem (grid_demand_history env) 0;
  let env' :=
    {| grid_demand_history := grid_demand_history env;
       n_step := n_step env;
       n_grid := n_grid env;
       initial_investment := initial_investment env;
       cur_step := 0;
       grid_owned := replicate (n_grid env) 0;
       grid_demand := row;
       vehicle_in_hand := initial_investment env;
       action_space := action_space env;
       action_list := action_list env;
       state_dim := state_dim env |} in
  obs ← _get_obs env';
  Ok (env', obs).

(** [__init__]: [data] is the two-dimensional table, one row per time
    step; its shape is (number of rows, length of a row). *)
Definition init (data : list (list Z)) (initial_investment : Z)
  : result MultiGridEnv :=
  let n := length (default [] (head data)) in
  '(env, _) ← reset
    {| grid_demand_history := data;
       n_step := length data;
       n_grid := n;
       initial_investment := initial_investment;
       cur_step := 0;
       grid_owned := [];
       grid_demand := [];
       vehicle_in_hand := 0;
       action_space := make_action_space n;
       action_list := make_action_list n;
       state_dim := (n * 2 + 1)%nat |};
  Ok env.

(** The loop over [enumerate(action_vec)] that collects [sell_index] and
    [buy_index]; [i] is the index of the head of [vec]. *)
Fixpoint split_action (i : nat) (vec : list Z) : list nat * list nat :=
  match vec with
  | [] => ([], [])
  | a :: rest =>
      let '(sell_index, buy_index) := split_action (S i) rest in
      if a =? 0 then (i :: sell_index, buy_index)
      else if a =? 2 then (sell_index, i :: buy_index)
      else (sell_index, buy_index)
  end.

(** The holdings a trade works on: [(grid_owned, vehicle_in_hand)]. *)
Abbreviation holdings := (list Z * Z)%type.

(** [for i in sell_index]: sell all units of [i] at today's valuation. *)
Fixpoint sell_all (demand : list Z) (sell_index : list nat) (st : holdings)
  : result holdings :=
  match sell_index with
  | [] => Ok st
  | i :: rest =>
      let '(owned, cash) := st in
      d ← getitem demand i;
      o ← getitem owned i;
      sell_all demand rest (<[i := 0]> owned, cash + d * o)
  end.

(** One execution of [for i in buy_index] inside the [while]; the third
    component is [can_buy]. *)
Fixpoint buy_pass (demand : list Z) (buy_index : list nat)
  (st : list Z * Z * bool) : result (list Z * Z * bool) :=
  match buy_index with
  | [] => Ok st
  | i :: rest =>
      let '(owned, cash, can_buy) := st in
      d ← getitem demand i;
      if cash >? d then
        o ← getitem owned i;
        buy_pass demand rest (<[i := o + 1]> owned, cash - d, can_buy)
      else
        buy_pass demand rest (owned, cash, false)
  end.

(** [while can_buy: ...], at most [fuel] passes. *)
Fixpoint buy_loop (fuel : nat) (demand : list Z) (buy_index : list nat)
  (st : holdings) : result holdings :=
  match fuel with
  | O => OutOfFuel
  | S fuel' =>
      '(st', can_buy) ← buy_pass demand buy_index (st.1, st.2, true);
      if can_buy : bool then buy_loop fuel' demand buy_index st'
      else Ok st'
  end.

(** The body of [_trade] once the action vector is known. *)
Definition trade_vec (fuel : nat) (demand : list Z) (action_vec : list Z)
  (st : holdings) : result holdings :=
  let '(sell_index, buy_index) := split_action 0 action_vec in
  st1 ← match sell_index with
        | [] => Ok st
        | _ => sell_all demand sell_index st
        end;
  match buy_index with
  | [] => Ok st1
  | _ => buy_loop fuel demand buy_index st1
  end.

Definition set_holdings (env : MultiGridEnv) (st : holdings) : MultiGridEnv :=
  {| grid_demand_history := grid_demand_history env;
     n_step := n_step env;
     n_grid := n_grid env;
     initial_investment := initial_investment env;
     cur_step := cur_step env;
     grid_owned := st.1;
     grid_demand := grid_demand env;
     vehicle_in_hand := st.2;
     action_space := action_space env;
     action_list := action_list env;
     state_dim := state_dim env |}.

Definition _trade (fuel : nat) (env : MultiGridEnv) (action : Z)
  : result MultiGridEnv :=
  action_vec ← py_getitem (action_list env) action;
  st ← trade_vec fuel (grid_demand env) action_vec
         (grid_owned env, vehicle_in_hand env);
  Ok (set_holdings env st).

(** What [step] returns: observation, reward, done, [info['cur_val']]. *)
Record step_out := {
  out_obs : list Z;
  out_reward : Z;
  out_done : bool;
  out_cur_val : Z
}.

Definition advance (env : MultiGridEnv) (row : list Z) : MultiGridEnv :=
  {| grid_demand_history := grid_demand_history env;
     n_step := n_step env;
     n_grid := n_grid env;
     initial_investment := initial_investment env;
     cur_step := S (cur_step env);
     grid_owned := grid_owned env;
     grid_demand := row;
     vehicle_in_hand := vehicle_in_hand env;
     action_space := action_space env;
     action_list := action_list env;
     state_dim := state_dim env |}.

Definition step (fuel : nat) (env : MultiGridEnv) (action : Z)
  : result (MultiGridEnv * step_out) :=
  if negb (bool_decide (action ∈ action_space env)) then Raise AssertionError
  else
    prev_val ← _get_val env;
    row ← getitem (grid_demand_history env) (S (cur_step env));
    env' ← _trade fuel (advance env row) action;
    cur_val ← _get_val env';
    let reward := cur_val - prev_val in
    let done := bool_decide (Z.of_nat (cur_step env') = Z.of_nat (n_step env') - 1) in
    obs ← _get_obs env';
    Ok (env', {| out_obs := obs; out_reward := reward;
                 out_done := done; out_cur_val := cur_val |}).

(** A caller's view of the environment: a sequence of [reset] and [step]
    calls, each of which returns normally. *)
Inductive call := Reset | Step (action : Z).

Fixpoint run (fuel : nat) (calls : list call) (env : MultiGridEnv)
  : result MultiGridEnv :=
  match calls with
  | [] => Ok env
  | Reset :: rest => '(env', _) ← reset env; run fuel rest env'
  | Step a :: rest => '(env', _) ← step fuel env a; run fuel rest env'
  end.

(** ** Library interfaces

    numpy and torch are external to the repository; the operations the
    agent and the buffer take from them are the members of two classes.
    Values stored in a float32 array are kept as binary64 numbers (every
    float32 is one); [to_f32] is the rounding numpy performs on such a
    store. *)

Class NumPy := {
  to_f32 : float -> float;          (* cast on assignment into a float32 array *)
  amax : list float -> float        (* np.amax over one row *)
}.

Class Torch := {
  Model : Type;
  mlp : nat -> nat -> Model;        (* MLP(n_inputs, n_action), optimizer included *)
  predict : Model -> list (list float) -> list (list float);
  train_one_step : Model -> list (list float) -> list (list float) -> Model
}.

(** The binary64 value of a small non-negative integer. *)
Fixpoint float_of_pos (p : positive) : float :=
  match p with
  | xH => 1%float
  | xO p' => PrimFloat.mul 2%float (float_of_pos p')
  | xI p' => PrimFloat.add (PrimFloat.mul 2%float (float_of_pos p')) 1%float
  end.

Definition float_of_uint8 (z : Z) : float :=
  match z with
  | Zpos p => float_of_pos p
  | _ => 0%float
  end.

(** Cast of an integer on assignment into a uint8 array. *)
Definition to_uint8 (z : Z) : Z := z mod 256.

(** ** ReplayBuffer *)

Record ReplayBuffer := {
  obs1_buf : list (list float);
  obs2_buf : list (list float);
  acts_buf : list Z;
  rews_buf : list float;
  done_buf : list Z;
  ptr : nat;
  size : nat;
  max_size : nat
}.

Definition ReplayBuffer_init (obs_dim act_dim size : nat) : ReplayBuffer :=
  {| obs1_buf := replicate size (replicate obs_dim 0%float);
     obs2_buf := replicate size (replicate obs_dim 0%float);
     acts_buf := replicate size 0;
     rews_buf := replicate size 0%float;
     done_buf := replicate size 0;
     ptr := 0; size := 0; max_size := size |}.

(** [buf[i] = x] on a one-dimensional array. *)
Definition setitem {A} (l : list A) (i : nat) (x : A) : result (list A) :=
  if bool_decide (i < length l)%nat then Ok (<[i := x]> l) else Raise IndexError.

(** [buf[i] = src] on a two-dimensional float32 array: the row takes the
    values of [src], a one-element [src] being broadcast. *)
Definition setrow `{NumPy} (buf : list (list float)) (i : nat) (src : list float)
  : result (list (list float)) :=
  old ← getitem buf i;
  if bool_decide (length src = length old) then Ok (<[i := map to_f32 src]> buf)
  else match src with
       | [x] => Ok (<[i := replicate (length old) (to_f32 x)]> buf)
       | _ => Raise ValueError
       end.

(** One experience, as the arguments of [store]. *)
Record transition := {
  t_obs : list float;
  t_act : Z;
  t_rew : float;
  t_next_obs : list float;
  t_done : bool
}.

Definition store `{NumPy} (self : ReplayBuffer) (t : transition) : result ReplayBuffer :=
  o1 ← setrow (obs1_buf self) (ptr self) (t_obs t);
  o2 ← setrow (obs2_buf self) (ptr self) (t_next_obs t);
  ac ← setitem (acts_buf self) (ptr self) (to_uint8 (t_act t));
  rw ← setitem (rews_buf self) (ptr self) (to_f32 (t_rew t));
  dn ← setitem (done_buf self) (ptr self) (if t_done t then 1 else 0);
  Ok {| obs1_buf := o1; obs2_buf := o2; acts_buf := ac; rews_buf := rw;
        done_buf := dn;
        ptr := (ptr self + 1) `mod` max_size self;
        size := (size self + 1) `min` max_size self;
        max_size := max_size self |}.

Fixpoint store_all `{NumPy} (self : ReplayBuffer) (ts : list transition)
  : result ReplayBuffer :=
  match ts with
  | [] => Ok self
  | t :: rest => self' ← store self t; store_all self' rest
  end.

(** What slot [i] of the buffer holds, read across the five arrays. *)
Record slot := {
  s_obs : list float;
  s_act : Z;
  s_rew : float;
  s_next_obs : list float;
  s_done : Z
}.

Definition read_slot (self : ReplayBuffer) (i : nat) : result slot :=
  o1 ← getitem (obs1_buf self) i;
  o2 ← getitem (obs2_buf self) i;
  ac ← getitem (acts_buf self) i;
  rw ← getitem (rews_buf self) i;
  dn ← getitem (done_buf self) i;
  Ok {| s_obs := o1; s_act := ac; s_rew := rw; s_next_obs := o2; s_done := dn |}.

(** The slot contents [store] writes for a transition whose observations
    have the buffer's row width. *)
Definition stored `{NumPy} (t : transition) : slot :=
  {| s_obs := map to_f32 (t_obs t);
     s_act := to_uint8 (t_act t);
     s_rew := to_f32 (t_rew t);
     s_next_obs := map to_f32 (t_next_obs t);
     s_done := if t_done t then 1 else 0 |}.

(** [buf[idxs]]: gather by an index array. *)
Fixpoint gather {A} (buf : list A) (idxs : list nat) : result (list A) :=
  match idxs with
  | [] => Ok []
  | i :: rest => x ← getitem buf i; xs ← gather buf rest; Ok (x :: xs)
  end.

Record minibatch := {
  mb_s : list (list float);
  mb_s2 : list (list float);
  mb_a : list Z;
  mb_r : list float;
  mb_d : list Z
}.

(** [sample_batch]; [idxs] is the array drawn by
    [np.random.randint(0, self.size, size=batch_size)]. *)
Definition sample_batch (self : ReplayBuffer) (idxs : list nat) : result minibatch :=
  s ← gather (obs1_buf self) idxs;
  s2 ← gather (obs2_buf self) idxs;
  a ← gather (acts_buf self) idxs;
  r ← gather (rews_buf self) idxs;
  d ← gather (done_buf self) idxs;
  Ok {| mb_s := s; mb_s2 := s2; mb_a := a; mb_r := r; mb_d := d |}.

(** ** DQNAgent *)

Record DQNAgent `{Torch} := {
  state_size : nat;
  action_size : nat;
  memory : ReplayBuffer;
  gamma : float;
  epsilon : float;
  epsilon_min : float;
  epsilon_decay : float;
  model : Model
}.

Definition DQNAgent_init `{Torch} (state_size action_size : nat) : DQNAgent :=
  {| state_size := state_size;
     action_size := action_size;
     memory := ReplayBuffer_init state_size action_size 500;
     gamma := 0.95%float;
     epsilon := 1.0%float;
     epsilon_min := 0.01%float;
     epsilon_decay := 0.995%float;
     model := mlp state_size action_size |}.

Definition set_memory `{Torch} (self : DQNAgent) (m : ReplayBuffer) : DQNAgent :=
  {| state_size := state_size self; action_size := action_size self;
     memory := m; gamma := gamma self; epsilon := epsilon self;
     epsilon_min := epsilon_min self; epsilon_decay := epsilon_decay self;
     model := model self |}.

Definition update_replay_memory `{NumPy} `{Torch} (self : DQNAgent) (t : transition)
  : result DQNAgent :=
  m ← store (memory self) t;
  Ok (set_memory self m).

(** [rewards + (1 - done) * self.gamma * np.amax(predict(model, next_states), axis=1)],
    elementwise over the batch. *)
Fixpoint td_target `{NumPy} (gamma : float) (rewards : list float) (done : list Z)
  (q_next : list (list float)) : result (list float) :=
  match rewards, done, q_next with
  | [], [], [] => Ok []
  | r :: rs, d :: ds, row :: rows =>
      ys ← td_target gamma rs ds rows;
      Ok (PrimFloat.add r
            (PrimFloat.mul
               (PrimFloat.mul (float_of_uint8 (to_uint8 (1 - d))) gamma)
               (amax row)) :: ys)
  | _, _, _ => Raise ValueError
  end.

(** [target_full[np.arange(batch_size), actions] = target]: in row [b]
    the entry of column [actions[b]] is replaced. *)
Fixpoint assign_taken `{NumPy} (target_full : list (list float)) (actions : list Z)
  (target : list float) : result (list (list float)) :=
  match target_full, actions, target with
  | [], [], [] => Ok []
  | row :: rows, a :: acts, y :: ys =>
      row' ← setitem row (Z.to_nat a) (to_f32 y);
      rows' ← assign_taken rows acts ys;
      Ok (row' :: rows')
  | _, _, _ => Raise IndexError
  end.

(** The target matrix [replay] hands to [train_one_step]. *)
Definition replay_target `{NumPy} `{Torch} (self : DQNAgent) (mb : minibatch)
  : result (list (list float)) :=
  target ← td_target (gamma self) (mb_r mb) (mb_d mb)
             (predict (model self) (mb_s2 mb));
  assign_taken (predict (model self) (mb_s mb)) (mb_a mb) target.

(** The update of the exploration rate at the end of a training replay. *)
Definition decay_epsilon `{Torch} (self : DQNAgent) : float :=
  if PrimFloat.ltb (epsilon_min self) (epsilon self)
  then PrimFloat.mul (epsilon self) (epsilon_decay self)
  else epsilon self.

(** [replay]; [idxs] is the index array the sampling draws. *)
Definition replay `{NumPy} `{Torch} (self : DQNAgent) (batch_size : nat)
  (idxs : list nat) : result DQNAgent :=
  if bool_decide (size (memory self) < batch_size)%nat then Ok self
  else
    mb ← sample_batch (memory self) idxs;
    target_full ← replay_target self mb;
    Ok {| state_size := state_size self; action_size := action_size self;
          memory := memory self; gamma := gamma self;
          epsilon := decay_epsilon self;
          epsilon_min := epsilon_min self; epsilon_decay := epsilon_decay self;
          model := train_one_step (model self) (mb_s mb) target_full |}.



(** ** Quantities the properties are stated with *)

Definition sell_index (action_vec : list Z) : list nat := (split_action 0 action_vec).1.
Definition buy_index (action_vec : list Z) : list nat := (split_action 0 action_vec).2.

(** Entry [i] of an array, 0 outside it. *)
Definition at_ (a : list Z) (i : nat) : Z := default 0 (a !! i).

(** Total proceeds of selling the units listed in [idx]. *)
Fixpoint proceeds (demand owned : list Z) (idx : list nat) : Z :=
  match idx with
  | [] => 0
  | i :: rest => at_ demand i * at_ owned i + proceeds demand owned rest
  end.

(** The owned counts with the entries listed in [idx] set to 0. *)
Fixpoint zero_at (idx : list nat) (owned : list Z) : list Z :=
  match idx with
  | [] => owned
  | i :: rest => zero_at rest (<[i := 0]> owned)
  end.

(** The buy phase of [_trade]: the [if buy_index:] guard and the loop. *)
Definition buy_phase (fuel : nat) (demand : list Z) (buy_index : list nat)
  (st : holdings) : result holdings :=
  match buy_index with
  | [] => Ok st
  | _ => buy_loop fuel demand buy_index st
  end.

(** Value of the owned units at the given valuations. *)
Fixpoint holding_value (owned demand : list Z) : Z :=
  match owned, demand with
  | x :: owned', y :: demand' => x * y + holding_value owned' demand'
  | _, _ => 0
  end.

(** The shape facts [__init__] establishes and every method keeps. *)
Record wf_env (env : MultiGridEnv) : Prop := {
  wf_n_step : n_step env = length (grid_demand_history env);
  wf_rows : Forall (fun row => length row = n_grid env) (grid_demand_history env);
  wf_owned : length (grid_owned env) = n_grid env;
  wf_demand : length (grid_demand env) = n_grid env;
  wf_action_space : action_space env = make_action_space (n_grid env);
  wf_action_list : action_list env = make_action_list (n_grid env);
  wf_state_dim : state_dim env = (n_grid env * 2 + 1)%nat;
  wf_cur_step : (cur_step env < n_step env)%nat
}.

(** Valuation tables without negative entries. *)
Definition nonneg_data (data : list (list Z)) : Prop :=
  Forall (Forall (fun d => 0 <= d)) data.

(** Non-negative table, investment, counts and cash. *)
Definition solvent (env : MultiGridEnv) : Prop :=
  nonneg_data (grid_demand_history env)
  /\ 0 <= initial_investment env
  /\ Forall (fun x => 0 <= x) (grid_owned env)
  /\ 0 <= vehicle_in_hand env.

(** Index lists that stay inside both arrays, and index lists whose
    valuations are bounded below. *)
Definition in_range (demand owned : list Z) (idx : list nat) : Prop :=
  Forall (fun i => (i < length demand)%nat /\ (i < length owned)%nat) idx.

Definition prices_ge (lo : Z) (demand : list Z) (idx : list nat) : Prop :=
  Forall (fun i => lo <= at_ demand i) idx.

(** The buffer after the transitions [hist] have been stored in order,
    for capacity [C] and row width [d]: every one of the last [C]
    transitions sits in the slot numbered by its position modulo [C]. *)
Record buf_inv `{NumPy} (C d : nat) (hist : list transition) (b : ReplayBuffer) : Prop := {
  bi_max : max_size b = C;
  bi_ptr : ptr b = (length hist mod C)%nat;
  bi_size : size b = (length hist `min` C)%nat;
  bi_len1 : length (obs1_buf b) = C;
  bi_len2 : length (obs2_buf b) = C;
  bi_lena : length (acts_buf b) = C;
  bi_lenr : length (rews_buf b) = C;
  bi_lend : length (done_buf b) = C;
  bi_rows1 : Forall (fun row => length row = d) (obs1_buf b);
  bi_rows2 : Forall (fun row => length row = d) (obs2_buf b);
  bi_slots : forall i t, hist !! i = Some t -> (length hist <= i + C)%nat ->
               read_slot b (i mod C) = Ok (stored t)
}.




(** Instances of the two interfaces on which the buffer and the agent
    can be run: stores keep the value, the row maximum is a left fold,
    and the model is a fixed table that returns each state as its row of
    action values and is left alone by training. *)
Definition numpy_run : NumPy :=
  {| to_f32 := fun x => x;
     amax := fun row =>
       fold_left (fun m x => if PrimFloat.ltb m x then x else m) row neg_infinity |}.

Definition torch_run : Torch :=
  {| Model := unit;
     mlp := fun _ _ => tt;
     predict := fun _ states => states;
     train_one_step := fun m _ _ => m |}.

(** An agent over these instances whose memory has one slot, filled. *)
Definition agent_run : @DQNAgent torch_run :=
  {| state_size := 2; action_size := 2;
     memory := {| obs1_buf := [[0.5%float; 1.5%float]];
                  obs2_buf := [[3%float; 1%float]];
                  acts_buf := [1]; rews_buf := [2%float]; done_buf := [0];
                  ptr := 0; size := 1; max_size := 1 |};
     gamma := 0.95%float; epsilon := 1.0%float;
     epsilon_min := 0.01%float; epsilon_decay := 0.995%float;
     model := (tt : @Model torch_run) |}.

(** ** Further callers and quantities *)


(** The value [_get_val] computes, on well-shaped holdings. *)
Definition portfolio_value (env : MultiGridEnv) : Z :=
  holding_value (grid_owned env) (grid_demand env) + vehicle_in_hand env.


(** ** get_scaler, act, play_one_episode and the start of the main block *)

(** sklearn's [StandardScaler] and numpy's [argmax] are external.
    [transform] stands for [scaler.transform([state])], whose result is
    the one row that the agent and the buffer then work with. *)
Class Sklearn := {
  StandardScaler : Type;
  fit : list (list Z) -> StandardScaler;
  transform : StandardScaler -> list Z -> list float
}.

Class NumPyArgmax := {
  argmax : list float -> Z
}.

(** The binary64 value of an integer reward (exact below [2^53]). *)
Definition float_of_Z (z : Z) : float :=
  match z with
  | Z0 => 0%float
  | Zpos p => float_of_pos p
  | Zneg p => PrimFloat.opp (float_of_pos p)
  end.

(** [get_scaler]: the loop [for _ in range(env.n_step)], [k] iterations
    left; [choice i] is the action [np.random.choice(env.action_space)]
    returns in iteration [i]. *)
Fixpoint get_scaler_loop (fuel k i : nat) (choice : nat -> Z)
  (env : MultiGridEnv) (states : list (list Z))
  : result (MultiGridEnv * list (list Z)) :=
  match k with
  | O => Ok (env, states)
  | S k' =>
      '(env', out) ← step fuel env (choice i);
      let states' := states ++ [out_obs out] in
      if out_done out then Ok (env', states')
      else get_scaler_loop fuel k' (S i) choice env' states'
  end.

(** [get_scaler] returns the fitted scaler; the environment object it
    stepped is returned with it. *)
Definition get_scaler `{Sklearn} (fuel : nat) (choice : nat -> Z) (env : MultiGridEnv)
  : result (MultiGridEnv * StandardScaler) :=
  '(env', states) ← get_scaler_loop fuel (n_step env) 0 choice env [];
  Ok (env', fit states).

(** What the random generator hands out in one iteration of an episode:
    [np.random.rand()], [np.random.choice(action_size)] and the index
    array of [sample_batch]. *)
Record draw := {
  d_rand : float;
  d_choice : Z;
  d_idxs : list nat
}.

(** [act]: explore when the uniform draw is at most epsilon, otherwise
    take the argmax of the first row of the predictions. *)
Definition act `{Torch} `{NumPyArgmax} (self : DQNAgent) (state : list float) (d : draw)
  : result Z :=
  if PrimFloat.leb (d_rand d) (epsilon self) then Ok (d_choice d)
  else
    act_values ← getitem (predict (model self) [state]) 0;
    Ok (argmax act_values).

(** The [while not done] loop of [play_one_episode], at most [k]
    iterations; iteration [i] uses [rnd i]. It returns the agent, the
    environment and [info['cur_val']]. *)
Fixpoint episode_loop `{NumPy} `{Torch} `{NumPyArgmax} `{Sklearn}
  (k fuel : nat) (scaler : StandardScaler) (batch_size : nat) (rnd : nat -> draw)
  (is_train : string) (i : nat) (agent : DQNAgent) (env : MultiGridEnv)
  (state : list float) : result (DQNAgent * MultiGridEnv * Z) :=
  match k with
  | O => OutOfFuel
  | S k' =>
      action ← act agent state (rnd i);
      '(env', out) ← step fuel env action;
      let next_state := transform scaler (out_obs out) in
      agent' ← (if bool_decide (is_train = "train"%string) then
                  a1 ← update_replay_memory agent
                         {| t_obs := state; t_act := action;
                            t_rew := float_of_Z (out_reward out);
                            t_next_obs := next_state; t_done := out_done out |};
                  replay a1 batch_size (d_idxs (rnd i))
                else Ok agent);
      if out_done out then Ok (agent', env', out_cur_val out)
      else episode_loop k' fuel scaler batch_size rnd is_train (S i) agent' env' next_state
  end.

Definition play_one_episode `{NumPy} `{Torch} `{NumPyArgmax} `{Sklearn}
  (k fuel : nat) (scaler : StandardScaler) (batch_size : nat) (rnd : nat -> draw)
  (agent : DQNAgent) (env : MultiGridEnv) (is_train : string)
  : result (DQNAgent * MultiGridEnv * Z) :=
  '(env0, state) ← reset env;
  episode_loop k fuel scaler batch_size rnd is_train 0 agent env0 (transform scaler state).

(** The main block: [n_train = n_timesteps // 2], [data[:n_train]] and
    [data[n_train:]]. *)
Definition train_test_split (data : list (list Z)) : list (list Z) * list (list Z) :=
  let n_train := (length data / 2)%nat in
  (take n_train data, drop n_train data).

(** The main block up to the scaler: the environment on the training
    rows, then [get_scaler]. *)
Definition main_setup `{Sklearn} (fuel : nat) (choice : nat -> Z)
  (data : list (list Z)) (initial_investment : Z)
  : result (MultiGridEnv * StandardScaler) :=
  env ← init (train_test_split data).1 initial_investment;
  get_scaler fuel choice env.

(** Instances on which the callers can be run. *)
Definition sklearn_run : Sklearn :=
  {| StandardScaler := unit;
     fit := fun _ => tt;
     transform := fun _ state => map float_of_Z state |}.

Definition argmax_run : NumPyArgmax :=
  {| argmax := fun _ => 0 |}.

(** The fields [__init__] sets once and no method changes. *)
Definition same_config (env env' : MultiGridEnv) : Prop :=
  grid_demand_history env' = grid_demand_history env
  /\ n_step env' = n_step env /\ n_grid env' = n_grid env
  /\ initial_investment env' = initial_investment env
  /\ action_space env' = action_space env
  /\ action_list env' = action_list env
  /\ state_dim env' = state_dim env.

(** * Properties *)

(** ** Result monad *)

Lemma bind_Ok {A B} (m : result A) (k : A -> result B) (b : B) :
  m ≫= k = Ok b -> exists a, m = Ok a /\ k a = Ok b.
Proof. destruct m as [a| |]; simpl; intros E; try discriminate. eauto. Qed.

Lemma getitem_Ok {A} (l : list A) i x : getitem l i = Ok x <-> l !! i = Some x.
Proof. unfold getitem. destruct (l !! i); split; intros E; congruence. Qed.

Lemma getitem_lt {A} (l : list A) i :
  (i < length l)%nat -> exists x, getitem l i = Ok x /\ l !! i = Some x.
Proof.
  intros Hi. destruct (lookup_lt_is_Some_2 l i Hi) as [x Hx].
  exists x. split; [by apply getitem_Ok | done].
Qed.

Lemma getitem_ge {A} (l : list A) i :
  (length l <= i)%nat -> getitem l i = Raise IndexError.
Proof. intros Hi. unfold getitem. by rewrite lookup_ge_None_2. Qed.

(** ** The action table *)

Section Product.
Context {A : Type}.
Implicit Types (pool : list A) (res : list (list A)).

Lemma length_product_step pool res :
  length (product_step pool res) = (length res * length pool)%nat.
Proof.
  induction res as [|x res IH]; simpl; [done|].
  rewrite length_app, length_map, <- IH. done.
Qed.

Lemma product_step_lookup pool res q r y :
  pool !! r = Some y ->
  product_step pool res !! (q * length pool + r)%nat
  = (fun x => x ++ [y]) <$> res !! q.
Proof.
  intros Hr. revert q. induction res as [|x res IH]; intros q.
  - done.
  - change (product_step pool (x :: res))
      with (map (fun y => x ++ [y]) pool ++ product_step pool res).
    destruct q as [|q].
    + rewrite lookup_app_l by (rewrite length_map; eauto using lookup_lt_Some).
      simpl. clear IH. revert r Hr. induction pool as [|z pool IHp]; intros r Hr.
      * done.
      * destruct r; simpl in *; [congruence | by apply IHp].
    + rewrite lookup_app_r by (rewrite length_map; simpl; lia).
      rewrite length_map.
      replace (S q * length pool + r - length pool)%nat
        with (q * length pool + r)%nat by (simpl; lia).
      apply IH.
Qed.

Lemma itertools_product_S pool n :
  itertools_product pool (S n) = product_step pool (itertools_product pool n).
Proof.
  unfold itertools_product. generalize ([[]] : list (list A)).
  induction n as [|n IH]; intros init; [done|].
  change (replicate (S (S n)) pool) with (pool :: replicate (S n) pool).
  cbn [fold_left]. rewrite IH. done.
Qed.

Lemma length_itertools_product pool n :
  length (itertools_product pool n) = (length pool ^ n)%nat.
Proof.
  induction n as [|n IH]; [done|].
  rewrite itertools_product_S, length_product_step, IH. simpl. lia.
Qed.
End Product.

Lemma encode_snoc x d : encode (x ++ [d]) = 3 * encode x + d.
Proof. unfold encode. by rewrite fold_left_app. Qed.

Lemma pool3_lookup (r : nat) :
  (r < 3)%nat -> ([0; 1; 2] : list Z) !! r = Some (Z.of_nat r).
Proof. intros Hr. destruct r as [|[|[|r]]]; simpl; try done; lia. Qed.

Lemma action_list_S G :
  make_action_list (S G) = product_step [0; 1; 2] (make_action_list G).
Proof. apply itertools_product_S. Qed.

Lemma action_list_S_lookup G (n : nat) :
  make_action_list (S G) !! n
  = (fun x => x ++ [Z.of_nat (n mod 3)]) <$> make_action_list G !! (n / 3)%nat.
Proof.
  rewrite action_list_S.
  rewrite <- (product_step_lookup [0; 1; 2] _ (n / 3) (n mod 3)).
  - f_equal. simpl length. pose proof (Nat.div_mod_eq n 3). lia.
  - apply pool3_lookup. apply Nat.mod_upper_bound. lia.
Qed.

(** Index [n] of the table holds [v] exactly when [v] is the [G]-digit
    base-3 expansion of [n]. *)
Lemma action_list_spec G (n : nat) (v : list Z) :
  make_action_list G !! n = Some v
  <-> length v = G /\ Forall digit v /\ encode v = Z.of_nat n.
Proof.
  revert n v. induction G as [|G IH]; intros n v.
  - change (make_action_list 0) with [[] : list Z]. split.
    + destruct n; simpl; [|done]. intros [= <-]. by repeat split.
    + intros (Hl & _ & He). destruct v; [|done].
      unfold encode in He. simpl in He. by replace n with O by lia.
  - rewrite action_list_S_lookup. split.
    + intros Hv. apply fmap_Some in Hv as (x & Hx & ->).
      apply IH in Hx as (Hl & Hd & He).
      assert (n mod 3 < 3)%nat by (apply Nat.mod_upper_bound; lia).
      split; [rewrite length_app; simpl; lia|]. split.
      * apply Forall_app. split; [done|]. apply Forall_singleton.
        unfold digit. lia.
      * rewrite encode_snoc, He. pose proof (Nat.div_mod_eq n 3). lia.
    + intros (Hl & Hd & He).
      destruct (decide (v = [])) as [->|Hne]; [done|].
      destruct (exists_last Hne) as (x & d & ->).
      rewrite length_app in Hl. simpl in Hl.
      apply Forall_app in Hd as [Hx Hd]. apply Forall_inv in Hd.
      rewrite encode_snoc in He.
      assert (Hq : encode x = Z.of_nat (n / 3) /\ d = Z.of_nat (n mod 3)).
      { rewrite Nat2Z.inj_div, Nat2Z.inj_mod. change (Z.of_nat 3) with 3.
        unfold digit in Hd.
        assert (H3 : 3 <> 0) by lia. assert (H3' : 0 < 3) by lia.
        pose proof (Z.div_mod (Z.of_nat n) 3 H3) as Hdm.
        pose proof (Z.mod_pos_bound (Z.of_nat n) 3 H3'). lia. }
      destruct Hq as [Hq ->].
      assert (make_action_list G !! (n / 3)%nat = Some x) as ->.
      { apply IH. repeat split; [lia | done | done]. }
      done.
Qed.

Lemma length_action_list G : length (make_action_list G) = (3 ^ G)%nat.
Proof. apply (length_itertools_product [0; 1; 2]). Qed.

Lemma encode_nonneg v : Forall digit v -> 0 <= encode v.
Proof.
  induction v as [|d x IH] using rev_ind; intros Hd; [done|].
  apply Forall_app in Hd as [Hx Hd]. apply Forall_inv in Hd.
  rewrite encode_snoc. specialize (IH Hx). unfold digit in Hd. lia.
Qed.

(** C8. For [G] units the table built by [itertools.product] has [3^G]
    rows; row [n] is a vector of [G] digits over 0, 1, 2 whose base-3
    value, most significant unit first, is [n]; every such vector sits at
    the row numbered by its base-3 value; and distinct rows hold distinct
    vectors. *)
Theorem C8_action_encoding_bijection (G : nat) :
  length (make_action_list G) = (3 ^ G)%nat
  /\ (forall n : nat, (n < 3 ^ G)%nat ->
        exists v, make_action_list G !! n = Some v
                  /\ length v = G /\ Forall digit v /\ encode v = Z.of_nat n)
  /\ (forall v, length v = G -> Forall digit v ->
        0 <= encode v < Z.of_nat (3 ^ G)
        /\ make_action_list G !! Z.to_nat (encode v) = Some v)
  /\ (forall (m n : nat) v,
        make_action_list G !! m = Some v ->
        make_action_list G !! n = Some v -> m = n).
Proof.
  split; [apply length_action_list|]. split; [|split].
  - intros n Hn.
    destruct (lookup_lt_is_Some_2 (make_action_list G) n) as [v Hv].
    { by rewrite length_action_list. }
    exists v. split; [done|]. by apply action_list_spec.
  - intros v Hl Hd. pose proof (encode_nonneg v Hd) as Hnn.
    assert (Hv : make_action_list G !! Z.to_nat (encode v) = Some v).
    { apply action_list_spec. repeat split; [done | done | lia]. }
    split; [|done]. apply lookup_lt_Some in Hv.
    rewrite length_action_list in Hv. lia.
  - intros m n v Hm Hn.
    apply action_list_spec in Hm as (_ & _ & Hm).
    apply action_list_spec in Hn as (_ & _ & Hn). lia.
Qed.

Lemma C8_witness :
  make_action_list 3 !! 14%nat = Some [1; 1; 2]
  /\ encode [1; 1; 2] = 14
  /\ make_action_list 3 !! Z.to_nat (encode [2; 1; 0]) = Some [2; 1; 0].
Proof.
  destruct (C8_action_encoding_bijection 3) as (_ & Hdec & Henc & _).
  split; [reflexivity|]. split; [reflexivity|].
  apply (Henc [2; 1; 0]); [reflexivity|].
  repeat constructor; unfold digit; lia.
Defined.

(** ** The trade *)

Lemma split_action_range i vec :
  Forall (fun j => (i <= j < i + length vec)%nat) (split_action i vec).1
  /\ Forall (fun j => (i <= j < i + length vec)%nat) (split_action i vec).2
  /\ NoDup (split_action i vec).1 /\ NoDup (split_action i vec).2.
Proof.
  revert i. induction vec as [|a vec IH]; intros i; simpl.
  - repeat split; constructor.
  - destruct (IH (S i)) as (Hs & Hb & Ns & Nb).
    destruct (split_action (S i) vec) as [s b]. simpl in *.
    assert (Hs' : Forall (fun j => (i <= j < i + S (length vec))%nat) s).
    { eapply Forall_impl; [exact Hs|]. simpl. lia. }
    assert (Hb' : Forall (fun j => (i <= j < i + S (length vec))%nat) b).
    { eapply Forall_impl; [exact Hb|]. simpl. lia. }
    assert (His : i ∉ s).
    { intros Hin. rewrite Forall_forall in Hs. specialize (Hs _ Hin). lia. }
    assert (Hib : i ∉ b).
    { intros Hin. rewrite Forall_forall in Hb. specialize (Hb _ Hin). lia. }
    destruct (a =? 0); [|destruct (a =? 2)]; simpl; repeat split;
      try done; try (constructor; [lia | done]); by constructor.
Qed.

Lemma sell_index_lt vec : Forall (fun j => (j < length vec)%nat) (sell_index vec).
Proof.
  destruct (split_action_range 0 vec) as (H & _).
  eapply Forall_impl; [exact H|]. simpl. lia.
Qed.

Lemma buy_index_lt vec : Forall (fun j => (j < length vec)%nat) (buy_index vec).
Proof.
  destruct (split_action_range 0 vec) as (_ & H & _).
  eapply Forall_impl; [exact H|]. simpl. lia.
Qed.

Lemma sell_index_NoDup vec : NoDup (sell_index vec).
Proof. apply (split_action_range 0 vec). Qed.


Lemma at_insert_ne (a : list Z) i j x : i <> j -> at_ (<[i := x]> a) j = at_ a j.
Proof. intros Hne. unfold at_. by rewrite list_lookup_insert_ne. Qed.

Lemma proceeds_insert_notin demand owned i x idx :
  i ∉ idx -> proceeds demand (<[i := x]> owned) idx = proceeds demand owned idx.
Proof.
  induction idx as [|j idx IH]; intros Hni; simpl; [done|].
  apply not_elem_of_cons in Hni as [Hne Hni].
  by rewrite at_insert_ne, IH.
Qed.

Lemma length_zero_at idx owned : length (zero_at idx owned) = length owned.
Proof.
  revert owned. induction idx as [|i idx IH]; intros owned; simpl; [done|].
  by rewrite IH, length_insert.
Qed.

(** The sell loop credits the proceeds of every listed unit at the
    counts held before the loop and zeroes those counts. *)
Lemma sell_all_spec demand idx owned cash :
  NoDup idx ->
  Forall (fun i => (i < length demand)%nat /\ (i < length owned)%nat) idx ->
  sell_all demand idx (owned, cash)
  = Ok (zero_at idx owned, cash + proceeds demand owned idx).
Proof.
  revert owned cash. induction idx as [|i idx IH]; intros owned cash Hnd Hr.
  - simpl. f_equal. f_equal. lia.
  - apply NoDup_cons in Hnd as [Hni Hnd]. apply Forall_cons in Hr as [[Hd Ho] Hr].
    destruct (getitem_lt demand i Hd) as (d & Ed & Ld).
    destruct (getitem_lt owned i Ho) as (o & Eo & Lo).
    simpl. rewrite Ed. simpl. rewrite Eo. simpl.
    rewrite IH; [|done|].
    + rewrite proceeds_insert_notin by done.
      unfold at_. rewrite Ld, Lo. simpl. f_equal. f_equal. lia.
    + eapply Forall_impl; [exact Hr|]. simpl. intros j. rewrite length_insert. done.
Qed.

(** One pass over units none of which is affordable buys nothing and
    clears [can_buy]. *)
Lemma buy_pass_unaffordable demand idx owned cash b :
  Forall (fun i => exists d, demand !! i = Some d /\ cash <= d) idx ->
  buy_pass demand idx (owned, cash, b)
  = Ok (owned, cash, match idx with [] => b | _ => false end).
Proof.
  intros H. revert b. induction H as [|i idx (d & Hd & Hle) _ IH]; intros b.
  - done.
  - apply getitem_Ok in Hd. cbn [buy_pass]. rewrite Hd. cbn [mbind result_bind].
    destruct (Z.gtb_spec cash d) as [Hgt|_]; [lia|].
    rewrite IH. by destruct idx.
Qed.

(** C3. When every buy-marked unit is valued strictly above the cash, the
    buy loop ends after its first pass, for any bound of at least one
    pass, with the counts and the cash it started from. *)
Theorem C3_buy_loop_terminates_unaffordable
  (demand : list Z) (buy_idx : list nat) (owned : list Z) (cash : Z) :
  buy_idx <> [] ->
  Forall (fun i => exists d, demand !! i = Some d /\ cash < d) buy_idx ->
  buy_pass demand buy_idx (owned, cash, true) = Ok (owned, cash, false)
  /\ forall fuel, buy_loop (S fuel) demand buy_idx (owned, cash) = Ok (owned, cash).
Proof.
  intros Hne H.
  assert (Hp : buy_pass demand buy_idx (owned, cash, true) = Ok (owned, cash, false)).
  { rewrite buy_pass_unaffordable.
    - by destruct buy_idx.
    - eapply Forall_impl; [exact H|]. simpl. intros i (d & Hd & Hlt).
      exists d. split; [done | lia]. }
  split; [exact Hp|]. intros fuel. simpl. rewrite Hp. done.
Qed.

Lemma C3_witness :
  buy_loop 1 [30; 40; 50] [0; 2]%nat ([1; 0; 4], 20) = Ok ([1; 0; 4], 20).
Proof.
  apply (C3_buy_loop_terminates_unaffordable [30; 40; 50] [0; 2]%nat [1; 0; 4] 20).
  - discriminate.
  - repeat constructor.
    + exists 30. split; [reflexivity | lia].
    + exists 50. split; [reflexivity | lia].
Defined.

(** *** The buy loop *)

Lemma in_range_length demand owned owned' idx :
  length owned' = length owned -> in_range demand owned idx -> in_range demand owned' idx.
Proof.
  intros Hl H. eapply Forall_impl; [exact H|]. simpl. intros i. rewrite Hl. done.
Qed.

(** Unfolding one visit of the pass. *)
Lemma buy_pass_cons demand i rest owned cash b r :
  buy_pass demand (i :: rest) (owned, cash, b) = Ok r ->
  exists d, demand !! i = Some d /\
    ((d < cash /\ exists o, owned !! i = Some o
        /\ buy_pass demand rest (<[i := o + 1]> owned, cash - d, b) = Ok r)
     \/ (cash <= d /\ buy_pass demand rest (owned, cash, false) = Ok r)).
Proof.
  cbn [buy_pass]. intros E. apply bind_Ok in E as (d & Ed & E).
  apply getitem_Ok in Ed. exists d. split; [done|].
  destruct (Z.gtb_spec cash d) as [Hgt|Hle].
  - left. split; [lia|]. apply bind_Ok in E as (o & Eo & E).
    apply getitem_Ok in Eo. eauto.
  - right. split; [lia | done].
Qed.

Lemma buy_pass_total demand idx owned cash b :
  in_range demand owned idx ->
  exists r, buy_pass demand idx (owned, cash, b) = Ok r.
Proof.
  revert owned cash b. induction idx as [|i idx IH]; intros owned cash b Hr.
  - by eexists.
  - apply Forall_cons in Hr as [[Hd Ho] Hr].
    destruct (getitem_lt demand i Hd) as (d & Ed & _).
    destruct (getitem_lt owned i Ho) as (o & Eo & _).
    cbn [buy_pass]. rewrite Ed. cbn [mbind result_bind].
    destruct (cash >? d).
    + rewrite Eo. cbn [mbind result_bind]. apply IH.
      eapply in_range_length; [|exact Hr]. apply length_insert.
    + by apply IH.
Qed.

Lemma Forall_nonneg_insert (owned : list Z) i o :
  Forall (fun x => 0 <= x) owned -> owned !! i = Some o ->
  Forall (fun x => 0 <= x) (<[i := o + 1]> owned).
Proof.
  intros H Ho. apply Forall_insert; [done|].
  rewrite Forall_lookup in H. specialize (H _ _ Ho). simpl in H. lia.
Qed.

(** What one pass does to the holdings when valuations are not negative:
    cash never grows and never turns negative, counts stay non-negative,
    [can_buy] can only be cleared, a cleared flag means some listed unit
    costs at least the cash left, and a flag still set means the cash left
    is positive. *)
Lemma buy_pass_inv demand idx owned cash b owned' cash' b' :
  prices_ge 0 demand idx ->
  buy_pass demand idx (owned, cash, b) = Ok (owned', cash', b') ->
  length owned' = length owned
  /\ cash' <= cash
  /\ (0 <= cash -> 0 <= cash')
  /\ (Forall (fun x => 0 <= x) owned -> Forall (fun x => 0 <= x) owned')
  /\ (b' = true -> b = true)
  /\ (b = true -> b' = false -> exists i, i ∈ idx /\ cash' <= at_ demand i)
  /\ (b' = true -> 0 < cash -> 0 < cash')
  /\ (b' = true -> idx <> [] -> 0 < cash').
Proof.
  intros Hp. revert owned cash b.
  induction Hp as [|i idx Hi _ IH]; intros owned cash b E.
  - simpl in E. injection E as <- <- <-.
    repeat split; try done; try lia; intros; congruence.
  - apply buy_pass_cons in E as (d & Hd & [(Hlt & o & Ho & E) | (Hle & E)]);
      apply IH in E as (Hl & Hc & Hn & Ho' & Hb & Hex & Hpos & _);
      assert (Hat : at_ demand i = d) by (unfold at_; by rewrite Hd);
      rewrite Hat in Hi.
    + rewrite length_insert in Hl. repeat split.
      * done.
      * lia.
      * lia.
      * intros Hall. apply Ho'. by apply Forall_nonneg_insert.
      * done.
      * intros Hb1 Hb2. destruct (Hex Hb1 Hb2) as (j & Hj & Hle).
        exists j. split; [by apply list_elem_of_further | done].
      * intros Hb1 _. apply Hpos; [done | lia].
      * intros Hb1 _. apply Hpos; [done | lia].
    + repeat split.
      * done.
      * done.
      * done.
      * done.
      * intros Hb1. by specialize (Hb Hb1).
      * intros _ _. exists i. split; [apply list_elem_of_here | lia].
      * intros Hb1. by specialize (Hb Hb1).
      * intros Hb1. by specialize (Hb Hb1).
Qed.


(** Whenever the loop returns, the holdings are in order and some
    buy-marked unit costs at least the cash left. *)
Lemma buy_loop_inv fuel demand idx owned cash owned' cash' :
  prices_ge 0 demand idx ->
  buy_loop fuel demand idx (owned, cash) = Ok (owned', cash') ->
  length owned' = length owned
  /\ cash' <= cash
  /\ (0 <= cash -> 0 <= cash')
  /\ (Forall (fun x => 0 <= x) owned -> Forall (fun x => 0 <= x) owned')
  /\ exists i, i ∈ idx /\ cash' <= at_ demand i.
Proof.
  intros Hp. revert owned cash. induction fuel as [|fuel IH]; intros owned cash E.
  - done.
  - cbn [buy_loop] in E. apply bind_Ok in E as ([[o1 c1] b1] & E1 & E).
    simpl in E1. apply (buy_pass_inv _ _ _ _ _ _ _ _ Hp) in E1
      as (Hl & Hc & Hn & Ho & _ & Hex & _).
    destruct b1.
    + apply IH in E as (Hl' & Hc' & Hn' & Ho' & Hex').
      repeat split; [congruence | lia | lia | by intros; apply Ho', Ho | done].
    + injection E as <- <-. repeat split; try done. by apply Hex.
Qed.





(** C1 (code defect). The comment above the loop says it buys "one grid
    at a time until we run out of vehicle", and the claim says that on
    exit no buy-marked unit is affordable. The loop instead ends with the
    first pass in which some buy-marked unit was refused: the refusal
    clears [can_buy], the pass goes on buying the other units, and no
    further pass is made. On the two-row table with valuations 100 and 1
    and an investment of 50, the step with both units marked buy (action
    8) refuses unit 0, buys unit 1 once and returns with cash 49, whatever
    the bound on the passes, although unit 1 costs 1: not every
    buy-marked unit is valued at or above the cash left. *)
Theorem C1_buy_loop_stops_early :
  exists env env' out,
    init [[100; 1]; [100; 1]] 50 = Ok env
    /\ py_getitem (action_list env) 8 = Ok [2; 2]
    /\ (forall fuel, step (S fuel) env 8 = Ok (env', out))
    /\ grid_demand env' = [100; 1]
    /\ grid_owned env' = [0; 1]
    /\ vehicle_in_hand env' = 49
    /\ (forall fuel,
          buy_loop (S fuel) [100; 1] [0; 1]%nat ([0; 0], 50) = Ok ([0; 1], 49))
    /\ ~ Forall (fun i => 49 <= at_ [100; 1] i) [0; 1]%nat.
Proof.
  eexists _, _, _. split; [vm_compute; reflexivity|].
  split; [vm_compute; reflexivity|].
  split; [intros fuel; reflexivity|].
  split; [reflexivity|]. split; [reflexivity|]. split; [reflexivity|].
  split; [intros fuel; reflexivity|].
  intros H. apply Forall_cons in H as [_ H]. apply Forall_cons in H as [H _].
  unfold at_ in H. simpl in H. lia.
Qed.

(** *** Sells come first *)

Lemma trade_vec_sell_then_buy fuel demand vec owned cash :
  length vec = length demand -> length vec = length owned ->
  trade_vec fuel demand vec (owned, cash)
  = buy_phase fuel demand (buy_index vec)
      (zero_at (sell_index vec) owned,
       cash + proceeds demand owned (sell_index vec)).
Proof.
  intros Hd Ho. unfold trade_vec.
  pose proof (sell_index_lt vec) as Hs. pose proof (sell_index_NoDup vec) as Hn.
  unfold buy_index, sell_index in *.
  destruct (split_action 0 vec) as [s b]. simpl in *.
  assert (Es : match s with [] => Ok (owned, cash) | _ => sell_all demand s (owned, cash) end
               = Ok (zero_at s owned, cash + proceeds demand owned s)).
  { rewrite <- (sell_all_spec demand s owned cash Hn).
    - by destruct s.
    - eapply Forall_impl; [exact Hs|]. simpl. intros i. lia. }
  rewrite Es. done.
Qed.

(** ** The environment's methods *)

Lemma dot_length a b : length a = length b -> dot a b = Ok (holding_value a b).
Proof.
  revert b. induction a as [|x a IH]; intros [|y b] Hl; simpl in *; try done.
  rewrite IH by lia. done.
Qed.

Lemma dot_Ok a b v : dot a b = Ok v -> length a = length b /\ v = holding_value a b.
Proof.
  revert b v. induction a as [|x a IH]; intros [|y b] v E; simpl in *; try done.
  - by injection E as <-.
  - apply bind_Ok in E as (s & Es & E). injection E as <-.
    apply IH in Es as [-> ->]. done.
Qed.

Lemma elem_of_action_space n a :
  a ∈ make_action_space n <-> 0 <= a < Z.of_nat (3 ^ n).
Proof.
  unfold make_action_space. rewrite list_elem_of_In, in_map_iff. split.
  - intros (k & <- & Hk). apply in_seq in Hk. lia.
  - intros Ha. exists (Z.to_nat a). split; [lia|]. apply in_seq. lia.
Qed.

Lemma py_getitem_nonneg {A} (l : list A) a x :
  0 <= a -> l !! Z.to_nat a = Some x -> py_getitem l a = Ok x.
Proof.
  intros Ha Hx. unfold py_getitem.
  destruct (Z.leb_spec 0 a); [|lia]. by apply getitem_Ok.
Qed.

Lemma py_getitem_action n a :
  a ∈ make_action_space n ->
  exists vec, py_getitem (make_action_list n) a = Ok vec
              /\ make_action_list n !! Z.to_nat a = Some vec
              /\ length vec = n.
Proof.
  intros Ha. apply elem_of_action_space in Ha.
  destruct (lookup_lt_is_Some_2 (make_action_list n) (Z.to_nat a)) as [vec Hv].
  { rewrite length_action_list. lia. }
  exists vec. split; [apply py_getitem_nonneg; [lia | done]|]. split; [done|].
  by apply action_list_spec in Hv as (Hl & _).
Qed.

Lemma sell_all_inv demand idx owned cash owned' cash' :
  Forall (fun d => 0 <= d) demand ->
  sell_all demand idx (owned, cash) = Ok (owned', cash') ->
  Forall (fun x => 0 <= x) owned ->
  length owned' = length owned
  /\ Forall (fun x => 0 <= x) owned' /\ cash <= cash'.
Proof.
  intros Hd. revert owned cash.
  induction idx as [|i idx IH]; intros owned cash E Ho.
  - simpl in E. injection E as <- <-. repeat split; [done | lia].
  - cbn [sell_all] in E. apply bind_Ok in E as (d & Ed & E).
    apply bind_Ok in E as (o & Eo & E).
    apply getitem_Ok in Ed, Eo.
    apply IH in E as (Hl & Ho' & Hc).
    + rewrite length_insert in Hl. repeat split; [done | done |].
      rewrite Forall_lookup in Hd, Ho.
      specialize (Hd _ _ Ed). specialize (Ho _ _ Eo). simpl in *. nia.
    + apply Forall_insert; [done | lia].
Qed.

Lemma prices_ge_of_nonneg demand idx :
  Forall (fun d => 0 <= d) demand -> prices_ge 0 demand idx.
Proof.
  intros Hd. apply Forall_forall. intros i _. unfold at_.
  destruct (demand !! i) as [d|] eqn:E; simpl; [|lia].
  rewrite Forall_lookup in Hd. by apply (Hd _ _ E).
Qed.

(** A trade at non-negative valuations keeps counts and cash
    non-negative. *)
Lemma trade_vec_inv fuel demand vec owned cash owned' cash' :
  Forall (fun d => 0 <= d) demand ->
  trade_vec fuel demand vec (owned, cash) = Ok (owned', cash') ->
  Forall (fun x => 0 <= x) owned -> 0 <= cash ->
  length owned' = length owned
  /\ Forall (fun x => 0 <= x) owned' /\ 0 <= cash'.
Proof.
  intros Hd E Ho Hc. unfold trade_vec in E.
  destruct (split_action 0 vec) as [s b].
  apply bind_Ok in E as ([o1 c1] & E1 & E).
  assert (H1 : length o1 = length owned /\ Forall (fun x => 0 <= x) o1 /\ 0 <= c1).
  { destruct s as [|i s].
    - injection E1 as <- <-. done.
    - apply (sell_all_inv _ _ _ _ _ _ Hd) in E1 as (? & ? & ?); [|done].
      repeat split; [done | done | lia]. }
  destruct H1 as (Hl1 & Ho1 & Hc1).
  destruct b as [|j b].
  - injection E as <- <-. done.
  - apply buy_loop_inv in E as (Hl & _ & Hn & Ho' & _);
      [|by apply prices_ge_of_nonneg].
    repeat split; [congruence | by apply Ho' | by apply Hn].
Qed.

(** What a returning [step] has done. *)
Lemma step_Ok fuel env a env' out :
  step fuel env a = Ok (env', out) ->
  a ∈ action_space env
  /\ exists row vec st,
       grid_demand_history env !! S (cur_step env) = Some row
       /\ py_getitem (action_list env) a = Ok vec
       /\ trade_vec fuel row vec (grid_owned env, vehicle_in_hand env) = Ok st
       /\ env' = set_holdings (advance env row) st
       /\ length (grid_owned env) = length (grid_demand env)
       /\ length st.1 = length row
       /\ out_reward out
          = (holding_value st.1 row + st.2)
            - (holding_value (grid_owned env) (grid_demand env) + vehicle_in_hand env)
       /\ out_cur_val out = holding_value st.1 row + st.2
       /\ out_done out = bool_decide (Z.of_nat (S (cur_step env)) = Z.of_nat (n_step env) - 1).
Proof.
  unfold step. case_bool_decide as Ha; simpl; [|done]. intros E.
  split; [done|].
  apply bind_Ok in E as (prev & Ep & E).
  apply bind_Ok in E as (row & Er & E). apply getitem_Ok in Er.
  apply bind_Ok in E as (env1 & Et & E).
  apply bind_Ok in E as (cur & Ec & E).
  apply bind_Ok in E as (obs & Eobs & E).
  injection E as <- <-.
  unfold _trade in Et. apply bind_Ok in Et as (vec & Ev & Et).
  apply bind_Ok in Et as (st & Est & Et). injection Et as <-.
  unfold _get_val in Ep, Ec.
  apply bind_Ok in Ep as (v0 & Ev0 & Ep). injection Ep as <-.
  apply bind_Ok in Ec as (v1 & Ev1 & Ec). injection Ec as <-.
  apply dot_Ok in Ev0 as [Hl0 ->]. apply dot_Ok in Ev1 as [Hl1 ->].
  exists row, vec, st. simpl in *. repeat split; done.
Qed.

Lemma buy_pass_length demand idx owned cash b owned' cash' b' :
  buy_pass demand idx (owned, cash, b) = Ok (owned', cash', b') ->
  length owned' = length owned.
Proof.
  revert owned cash b. induction idx as [|i idx IH]; intros owned cash b E.
  - simpl in E. by injection E as <- <- <-.
  - apply buy_pass_cons in E as (d & Hd & [(Hlt & o & Ho & E) | (Hle & E)]);
      apply IH in E; [|done].
    by rewrite length_insert in E.
Qed.

(** On in-range indices the loop either returns or runs out of passes;
    it never raises. *)
Lemma buy_loop_cases fuel demand idx owned cash :
  in_range demand owned idx ->
  buy_loop fuel demand idx (owned, cash) = OutOfFuel
  \/ exists owned' cash',
       buy_loop fuel demand idx (owned, cash) = Ok (owned', cash')
       /\ length owned' = length owned.
Proof.
  revert owned cash. induction fuel as [|fuel IH]; intros owned cash Hr.
  - by left.
  - destruct (buy_pass_total demand idx owned cash true Hr) as ([[o1 c1] b1] & E1).
    pose proof (buy_pass_length _ _ _ _ _ _ _ _ E1) as Hl.
    cbn [buy_loop]. simpl. rewrite E1. cbn [mbind result_bind].
    destruct b1.
    + destruct (IH o1 c1) as [E | (o' & c' & E & Hl')].
      { by eapply in_range_length. }
      * by left.
      * right. exists o', c'. split; [done | congruence].
    + right. by exists o1, c1.
Qed.

Lemma trade_vec_cases fuel demand vec owned cash :
  length vec = length demand -> length vec = length owned ->
  trade_vec fuel demand vec (owned, cash) = OutOfFuel
  \/ exists owned' cash',
       trade_vec fuel demand vec (owned, cash) = Ok (owned', cash')
       /\ length owned' = length owned.
Proof.
  intros Hd Ho. rewrite trade_vec_sell_then_buy by done.
  pose proof (buy_index_lt vec) as Hb. unfold buy_phase.
  destruct (buy_index vec) as [|j b] eqn:Eb.
  - right. eexists _, _. split; [done|]. apply length_zero_at.
  - destruct (buy_loop_cases fuel demand (j :: b) (zero_at (sell_index vec) owned)
                (cash + proceeds demand owned (sell_index vec)))
      as [E | (o' & c' & E & Hl)].
    + eapply Forall_impl; [exact Hb|]. simpl. intros i.
      rewrite length_zero_at. lia.
    + by left.
    + right. exists o', c'. split; [done|]. by rewrite Hl, length_zero_at.
Qed.

Lemma wf_row env i row :
  wf_env env -> grid_demand_history env !! i = Some row -> length row = n_grid env.
Proof.
  intros Hwf Hr. pose proof (wf_rows env Hwf) as H.
  rewrite Forall_lookup in H. by apply (H _ _ Hr).
Qed.

Lemma get_obs_wf env :
  length (grid_owned env) = n_grid env -> length (grid_demand env) = n_grid env ->
  state_dim env = (n_grid env * 2 + 1)%nat ->
  _get_obs env = Ok (grid_owned env ++ grid_demand env ++ [vehicle_in_hand env]).
Proof. intros. unfold _get_obs. by rewrite bool_decide_eq_true_2. Qed.

(** [step] on a well-shaped environment whose next row exists, once the
    trade has returned. *)
Lemma step_eq fuel env a row vec st :
  wf_env env -> a ∈ action_space env ->
  grid_demand_history env !! S (cur_step env) = Some row ->
  py_getitem (action_list env) a = Ok vec ->
  trade_vec fuel row vec (grid_owned env, vehicle_in_hand env) = Ok st ->
  length st.1 = n_grid env ->
  step fuel env a
  = Ok (set_holdings (advance env row) st,
        {| out_obs := st.1 ++ row ++ [st.2];
           out_reward := (holding_value st.1 row + st.2)
                         - (holding_value (grid_owned env) (grid_demand env)
                            + vehicle_in_hand env);
           out_done := bool_decide (Z.of_nat (S (cur_step env))
                                    = Z.of_nat (n_step env) - 1);
           out_cur_val := holding_value st.1 row + st.2 |}).
Proof.
  intros Hwf Ha Hr Hv Ht Hl. pose proof (wf_row _ _ _ Hwf Hr) as Hrow.
  unfold step. rewrite bool_decide_eq_true_2 by done. simpl.
  unfold _get_val. rewrite dot_length
    by (by rewrite (wf_owned _ Hwf), (wf_demand _ Hwf)).
  cbn [mbind result_bind]. apply getitem_Ok in Hr. rewrite Hr.
  cbn [mbind result_bind]. unfold _trade. cbn [action_list advance].
  rewrite Hv. cbn [mbind result_bind].
  change (grid_demand (advance env row)) with row.
  change (grid_owned (advance env row)) with (grid_owned env).
  change (vehicle_in_hand (advance env row)) with (vehicle_in_hand env).
  rewrite Ht. cbn [mbind result_bind].
  change (grid_owned (set_holdings (advance env row) st)) with st.1.
  change (grid_demand (set_holdings (advance env row) st)) with row.
  change (vehicle_in_hand (set_holdings (advance env row) st)) with st.2.
  rewrite dot_length by congruence. cbn [mbind result_bind].
  rewrite get_obs_wf; [done | by cbn | by cbn | cbn; apply (wf_state_dim _ Hwf)].
Qed.

Lemma step_wf fuel env a env' out :
  wf_env env -> step fuel env a = Ok (env', out) ->
  wf_env env' /\ cur_step env' = S (cur_step env)
  /\ grid_demand_history env' = grid_demand_history env
  /\ initial_investment env' = initial_investment env.
Proof.
  intros Hwf E.
  apply step_Ok in E as (Ha & row & vec & st & Hr & Hv & Ht & -> & _ & Hl & _).
  pose proof (wf_row _ _ _ Hwf Hr) as Hrow.
  split; [|done]. destruct Hwf. constructor; cbn; try done; try congruence.
  apply lookup_lt_Some in Hr. lia.
Qed.

Lemma reset_Ok env env' obs :
  reset env = Ok (env', obs) ->
  exists row, grid_demand_history env !! 0%nat = Some row
    /\ grid_demand_history env' = grid_demand_history env
    /\ n_step env' = n_step env /\ n_grid env' = n_grid env
    /\ initial_investment env' = initial_investment env
    /\ cur_step env' = 0%nat
    /\ grid_owned env' = replicate (n_grid env) 0
    /\ grid_demand env' = row
    /\ vehicle_in_hand env' = initial_investment env
    /\ action_space env' = action_space env
    /\ action_list env' = action_list env
    /\ state_dim env' = state_dim env.
Proof.
  unfold reset. intros E. apply bind_Ok in E as (row & Er & E).
  apply getitem_Ok in Er. apply bind_Ok in E as (o & _ & E).
  injection E as <- <-. exists row. repeat split; done.
Qed.

Lemma init_Ok data ii env :
  init data ii = Ok env ->
  exists row, data !! 0%nat = Some row
    /\ grid_demand_history env = data
    /\ n_step env = length data /\ n_grid env = length row
    /\ initial_investment env = ii
    /\ cur_step env = 0%nat
    /\ grid_owned env = replicate (length row) 0
    /\ grid_demand env = row
    /\ vehicle_in_hand env = ii
    /\ action_space env = make_action_space (length row)
    /\ action_list env = make_action_list (length row)
    /\ state_dim env = (length row * 2 + 1)%nat.
Proof.
  unfold init. intros E. apply bind_Ok in E as ([env1 obs] & Er & E).
  injection E as <-. apply reset_Ok in Er as (row & Hr & H). cbn in Hr, H.
  exists row. split; [done|].
  assert (Hh : default [] (head data) = row).
  { destruct data; simpl in *; congruence. }
  rewrite Hh in H. exact H.
Qed.

(** [__init__] on a rectangular table yields a well-shaped environment. *)
Lemma init_wf data ii env :
  Forall (fun row => length row = length (default [] (head data))) data ->
  init data ii = Ok env -> wf_env env.
Proof.
  intros Hrect E. apply init_Ok in E
    as (row & Hr & Hh & Hn & Hg & Hi & Hc & Ho & Hd & Hv & Has & Hal & Hsd).
  assert (Hhd : default [] (head data) = row).
  { destruct data; simpl in *; congruence. }
  rewrite Hhd in Hrect.
  constructor; rewrite ?Hh, ?Hn, ?Hg, ?Hc, ?Ho, ?Hd; try done.
  - apply length_replicate.
  - apply lookup_lt_Some in Hr. lia.
Qed.

Lemma reset_wf env env' obs : wf_env env -> reset env = Ok (env', obs) -> wf_env env'.
Proof.
  intros Hwf E. apply reset_Ok in E
    as (row & Hr & Hh & Hn & Hg & Hi & Hc & Ho & Hd & Hv & Has & Hal & Hsd).
  pose proof (wf_row _ _ _ Hwf Hr) as Hrow.
  destruct Hwf. constructor; rewrite ?Hh, ?Hn, ?Hg, ?Hc, ?Ho, ?Hd, ?Has, ?Hal, ?Hsd;
    try done.
  - apply length_replicate.
  - apply lookup_lt_Some in Hr. lia.
Qed.

(** *** Cash stays non-negative *)

Lemma reset_solvent env env' obs :
  nonneg_data (grid_demand_history env) -> 0 <= initial_investment env ->
  reset env = Ok (env', obs) -> solvent env'.
Proof.
  intros Hd Hi E. apply reset_Ok in E
    as (row & Hr & Hh & Hn & Hg & Hi' & Hc & Ho & Hd' & Hv & _).
  unfold solvent. rewrite Hh, Hi', Ho, Hv. repeat split; try done.
  apply Forall_replicate. lia.
Qed.

Lemma step_solvent fuel env a env' out :
  solvent env -> step fuel env a = Ok (env', out) -> solvent env'.
Proof.
  intros (Hd & Hi & Ho & Hc) E.
  apply step_Ok in E as (_ & row & vec & [o' c'] & Hr & _ & Ht & -> & _).
  assert (Hrow : Forall (fun d => 0 <= d) row).
  { unfold nonneg_data in Hd. rewrite Forall_lookup in Hd. by apply (Hd _ _ Hr). }
  apply (trade_vec_inv _ _ _ _ _ _ _ Hrow) in Ht as (_ & Ho' & Hc'); [|done|done].
  unfold solvent. cbn. done.
Qed.

Lemma run_solvent fuel calls env env' :
  solvent env -> run fuel calls env = Ok env' -> solvent env'.
Proof.
  revert env. induction calls as [|[|a] calls IH]; intros env Hs E.
  - simpl in E. by injection E as <-.
  - cbn [run] in E. apply bind_Ok in E as ([env1 obs] & E1 & E).
    apply (IH env1); [|done]. destruct Hs as (Hd & Hi & _).
    by eapply reset_solvent.
  - cbn [run] in E. apply bind_Ok in E as ([env1 out] & E1 & E).
    apply (IH env1); [|done]. by eapply step_solvent.
Qed.

(** C4. On a valuation table without negative entries and with a
    non-negative initial investment, after any sequence of [reset] and
    [step] calls that return, the cash is non-negative (and so are all
    unit counts): a unit is bought only when the cash strictly exceeds
    its non-negative valuation, and a sale adds a non-negative amount.
    The same holds after any sequence of visits of the buy loop, whether
    or not the loop ever ends. *)
Theorem C4_cash_never_negative (data : list (list Z)) (investment : Z)
  (env0 : MultiGridEnv) (fuel : nat) (calls : list call) (env' : MultiGridEnv) :
  nonneg_data data -> 0 <= investment ->
  init data investment = Ok env0 ->
  run fuel calls env0 = Ok env' ->
  (0 <= vehicle_in_hand env' /\ Forall (fun x => 0 <= x) (grid_owned env'))
  /\ (forall row visits owned cash b owned' cash' b',
        In row data -> 0 <= cash ->
        buy_pass row visits (owned, cash, b) = Ok (owned', cash', b') ->
        0 <= cash').
Proof.
  intros Hd Hi E0 E. split.
  - assert (Hs : solvent env0).
    { unfold init in E0. apply bind_Ok in E0 as ([env1 obs] & Er & E0).
      injection E0 as <-. eapply reset_solvent; [| |exact Er]; cbn; done. }
    apply (run_solvent _ _ _ _ Hs) in E as (_ & _ & Ho & Hc). done.
  - intros row visits owned cash b owned' cash' b' Hrow Hc Ep.
    unfold nonneg_data in Hd. rewrite Forall_forall in Hd.
    apply list_elem_of_In in Hrow. specialize (Hd _ Hrow).
    apply buy_pass_inv in Ep as (_ & _ & Hn & _); [by apply Hn|].
    by apply prices_ge_of_nonneg.
Qed.

Lemma C4_witness :
  exists env0 env',
    init [[10; 20; 30]; [12; 18; 32]; [11; 19; 31]; [13; 17; 33]] 100 = Ok env0
    /\ run 50 [Step 26; Step 9; Reset; Step 8; Step 0] env0 = Ok env'
    /\ 0 <= vehicle_in_hand env' /\ Forall (fun x => 0 <= x) (grid_owned env').
Proof.
  eexists. eexists. split; [vm_compute; reflexivity|].
  split; [vm_compute; reflexivity|].
  eapply (C4_cash_never_negative
            [[10; 20; 30]; [12; 18; 32]; [11; 19; 31]; [13; 17; 33]] 100 _ 50
            [Step 26; Step 9; Reset; Step 8; Step 0]).
  - repeat constructor; lia.
  - lia.
  - vm_compute. reflexivity.
  - vm_compute. reflexivity.
Defined.

(** C5. The trade is the buy phase run on the holdings left by all the
    sells: the counts of every sell-marked unit set to zero and the cash
    increased by the proceeds of all of them, at the valuations traded
    at. Inside [step] those valuations are the row of the new step, so
    every affordability check and every debit of a buy works on the cash
    after all sell proceeds. *)
Theorem C5_sells_before_buys (fuel : nat) (demand vec owned : list Z) (cash : Z) :
  length vec = length demand -> length vec = length owned ->
  trade_vec fuel demand vec (owned, cash)
  = buy_phase fuel demand (buy_index vec)
      (zero_at (sell_index vec) owned,
       cash + proceeds demand owned (sell_index vec))
  /\ (forall env a env' out,
        grid_owned env = owned -> vehicle_in_hand env = cash ->
        grid_demand_history env !! S (cur_step env) = Some demand ->
        py_getitem (action_list env) a = Ok vec ->
        step fuel env a = Ok (env', out) ->
        buy_phase fuel demand (buy_index vec)
          (zero_at (sell_index vec) owned,
           cash + proceeds demand owned (sell_index vec))
        = Ok (grid_owned env', vehicle_in_hand env')).
Proof.
  intros Hd Ho. split; [by apply trade_vec_sell_then_buy|].
  intros env a env' out <- <- Hr Hv E.
  apply step_Ok in E as (_ & row & vec' & [o' c'] & Hr' & Hv' & Ht & -> & _).
  rewrite Hr in Hr'. injection Hr' as <-. rewrite Hv in Hv'. injection Hv' as <-.
  rewrite <- trade_vec_sell_then_buy by done. exact Ht.
Qed.

Lemma C5_witness :
  trade_vec 10 [10; 20; 30] [2; 0; 1] ([0; 3; 0], 5)
  = buy_phase 10 [10; 20; 30] [0]%nat ([0; 0; 0], 65)
  /\ buy_phase 10 [10; 20; 30] [0]%nat ([0; 0; 0], 65) = Ok ([6; 0; 0], 5)
  /\ buy_phase 10 [10; 20; 30] [0]%nat ([0; 3; 0], 5) = Ok ([0; 3; 0], 5).
Proof.
  split; [|split; reflexivity].
  apply (C5_sells_before_buys 10 [10; 20; 30] [2; 0; 1] [0; 3; 0] 5); reflexivity.
Defined.





(** *** The row read by [step] *)

Lemma step_trade_out_of_fuel fuel env a row vec :
  wf_env env -> a ∈ action_space env ->
  grid_demand_history env !! S (cur_step env) = Some row ->
  py_getitem (action_list env) a = Ok vec ->
  trade_vec fuel row vec (grid_owned env, vehicle_in_hand env) = OutOfFuel ->
  step fuel env a = OutOfFuel.
Proof.
  intros Hwf Ha Hr Hv Ht.
  unfold step. rewrite bool_decide_eq_true_2 by done. simpl.
  unfold _get_val. rewrite dot_length
    by (by rewrite (wf_owned _ Hwf), (wf_demand _ Hwf)).
  cbn [mbind result_bind]. apply getitem_Ok in Hr. rewrite Hr.
  cbn [mbind result_bind]. unfold _trade. cbn [action_list advance].
  rewrite Hv. cbn [mbind result_bind].
  change (grid_demand (advance env row)) with row.
  change (grid_owned (advance env row)) with (grid_owned env).
  change (vehicle_in_hand (advance env row)) with (vehicle_in_hand env).
  rewrite Ht. done.
Qed.

Lemma step_out_of_bounds fuel env a :
  wf_env env -> a ∈ action_space env ->
  (n_step env <= S (cur_step env))%nat ->
  step fuel env a = Raise IndexError.
Proof.
  intros Hwf Ha Hn.
  unfold step. rewrite bool_decide_eq_true_2 by done. simpl.
  unfold _get_val. rewrite dot_length
    by (by rewrite (wf_owned _ Hwf), (wf_demand _ Hwf)).
  cbn [mbind result_bind].
  rewrite getitem_ge; [done|]. rewrite <- (wf_n_step _ Hwf). done.
Qed.

Lemma step_in_bounds fuel env a :
  wf_env env -> a ∈ action_space env ->
  (S (cur_step env) < n_step env)%nat ->
  step fuel env a = OutOfFuel
  \/ exists env' out, step fuel env a = Ok (env', out).
Proof.
  intros Hwf Ha Hn.
  destruct (lookup_lt_is_Some_2 (grid_demand_history env) (S (cur_step env)))
    as [row Hr]; [by rewrite <- (wf_n_step _ Hwf)|].
  pose proof (wf_row _ _ _ Hwf Hr) as Hrow.
  pose proof Ha as Ha'. rewrite (wf_action_space _ Hwf) in Ha'.
  destruct (py_getitem_action _ _ Ha') as (vec & Hv & _ & Hvl).
  rewrite <- (wf_action_list _ Hwf) in Hv.
  destruct (trade_vec_cases fuel row vec (grid_owned env) (vehicle_in_hand env))
    as [E | (o' & c' & E & Hl)].
  - congruence.
  - rewrite (wf_owned _ Hwf). congruence.
  - left. by eapply step_trade_out_of_fuel.
  - right. eexists _, _. eapply (step_eq fuel env a row vec); try done.
    simpl. rewrite Hl. apply (wf_owned _ Hwf).
Qed.

(** C10. On a well-shaped environment and a valid action, [step] reads
    row [cur_step + 1] of the table. When [cur_step + 1 < n_step] the
    read is in bounds: the call returns, or its buy loop is still running
    at the bound on passes, and it does not raise. When
    [cur_step + 1 >= n_step] the call raises [IndexError]. In particular
    a step taken after one that returned [done = true] raises
    [IndexError]. *)
Theorem C10_step_reads_next_row (env : MultiGridEnv) (a : Z) :
  wf_env env -> a ∈ action_space env ->
  ((S (cur_step env) < n_step env)%nat ->
     forall fuel, step fuel env a = OutOfFuel
                  \/ exists env' out, step fuel env a = Ok (env', out))
  /\ ((n_step env <= S (cur_step env))%nat ->
        forall fuel, step fuel env a = Raise IndexError)
  /\ (forall fuel env' out,
        step fuel env a = Ok (env', out) -> out_done out = true ->
        forall fuel' a', a' ∈ action_space env' ->
          step fuel' env' a' = Raise IndexError).
Proof.
  intros Hwf Ha. split; [|split].
  - intros Hn fuel. by apply step_in_bounds.
  - intros Hn fuel. by apply step_out_of_bounds.
  - intros fuel env' out E Hdone fuel' a' Ha'.
    destruct (step_wf _ _ _ _ _ Hwf E) as (Hwf' & Hc & _).
    pose proof E as E'.
    apply step_Ok in E' as (_ & row & vec & st & _ & _ & _ & Henv & _ & _ & _ & _ & Hd).
    rewrite Hd in Hdone. apply bool_decide_eq_true_1 in Hdone.
    apply step_out_of_bounds; [done | done |].
    rewrite Hc. subst env'. cbn. lia.
Qed.

Lemma C10_witness :
  match init [[10; 20]; [12; 18]] 100 with
  | Ok env =>
      exists env' out,
        step 5 env 8 = Ok (env', out) /\ out_done out = true
        /\ step 5 env' 4 = Raise IndexError
  | _ => False
  end.
Proof.
  destruct (init [[10; 20]; [12; 18]] 100) as [env| |] eqn:E0;
    [|vm_compute in E0; discriminate ..].
  assert (Hwf : wf_env env).
  { eapply init_wf; [|exact E0]. repeat constructor. }
  vm_compute in E0. injection E0 as <-.
  destruct (C10_step_reads_next_row _ 8 Hwf) as (_ & _ & H).
  { apply (proj2 (elem_of_action_space 2 8)). cbn. lia. }
  eexists _, _. split; [vm_compute; reflexivity|]. split; [reflexivity|].
  eapply (H 5%nat); [vm_compute; reflexivity | reflexivity |].
  apply (proj2 (elem_of_action_space 2 4)). cbn. lia.
Defined.

(** ** The replay buffer *)

Section Buffer.
Context `{NumPy}.

Lemma buf_inv_init C d act_dim : buf_inv C d [] (ReplayBuffer_init d act_dim C).
Proof.
  constructor; cbn; rewrite ?length_replicate; try done.
  - symmetry. apply Nat.Div0.mod_0_l.
  - apply Forall_replicate, length_replicate.
  - apply Forall_replicate, length_replicate.
Qed.

Lemma setrow_Ok buf i src d :
  (i < length buf)%nat -> Forall (fun row => length row = d) buf ->
  length src = d ->
  setrow buf i src = Ok (<[i := map to_f32 src]> buf).
Proof.
  intros Hi Hrows Hs. unfold setrow.
  destruct (getitem_lt buf i Hi) as (old & -> & Hold). cbn [mbind result_bind].
  rewrite Forall_lookup in Hrows. specialize (Hrows _ _ Hold). simpl in Hrows.
  rewrite bool_decide_eq_true_2 by congruence. done.
Qed.

Lemma setitem_Ok {A} (l : list A) i x :
  (i < length l)%nat -> setitem l i x = Ok (<[i := x]> l).
Proof. intros Hi. unfold setitem. by rewrite bool_decide_eq_true_2. Qed.

Lemma mod_distinct (C i n : nat) :
  (i < n)%nat -> (n < i + C)%nat -> (i mod C)%nat <> (n mod C)%nat.
Proof.
  intros Hin HnC Heq.
  pose proof (Nat.div_mod_eq i C) as Hi. pose proof (Nat.div_mod_eq n C) as Hn.
  assert (Hq : (i / C <= n / C)%nat) by (apply Nat.Div0.div_le_mono; lia).
  destruct (decide (i / C = n / C)%nat) as [Hqe|Hqne].
  - rewrite Hqe in Hi. lia.
  - assert (C * (i / C) + C <= C * (n / C))%nat by nia. lia.
Qed.

Lemma read_slot_insert b i t (b' : ReplayBuffer) j :
  obs1_buf b' = <[i := map to_f32 (t_obs t)]> (obs1_buf b) ->
  obs2_buf b' = <[i := map to_f32 (t_next_obs t)]> (obs2_buf b) ->
  acts_buf b' = <[i := to_uint8 (t_act t)]> (acts_buf b) ->
  rews_buf b' = <[i := to_f32 (t_rew t)]> (rews_buf b) ->
  done_buf b' = <[i := if t_done t then 1 else 0]> (done_buf b) ->
  (i < length (obs1_buf b))%nat -> (i < length (obs2_buf b))%nat ->
  (i < length (acts_buf b))%nat -> (i < length (rews_buf b))%nat ->
  (i < length (done_buf b))%nat ->
  read_slot b' j = if decide (i = j) then Ok (stored t) else read_slot b j.
Proof.
  intros E1 E2 E3 E4 E5 ? ? ? ? ?. unfold read_slot, getitem.
  rewrite E1, E2, E3, E4, E5.
  destruct (decide (i = j)) as [->|Hne].
  - rewrite !list_lookup_insert_eq by done. done.
  - rewrite !list_lookup_insert_ne by done. done.
Qed.

Lemma store_inv C d hist b t :
  (1 <= C)%nat -> buf_inv C d hist b ->
  length (t_obs t) = d -> length (t_next_obs t) = d ->
  exists b', store b t = Ok b' /\ buf_inv C d (hist ++ [t]) b'.
Proof.
  intros HC Hb Ho Ho2. destruct Hb.
  assert (Hp : (ptr b < C)%nat).
  { rewrite bi_ptr0. apply Nat.mod_upper_bound. lia. }
  eexists. split.
  - unfold store.
    rewrite (setrow_Ok _ _ _ d) by (try done; lia). cbn [mbind result_bind].
    rewrite (setrow_Ok _ _ _ d) by (try done; lia). cbn [mbind result_bind].
    rewrite !setitem_Ok by lia. cbn [mbind result_bind]. reflexivity.
  - constructor; cbn; rewrite ?length_insert, ?length_app; try done.
    + rewrite bi_max0, bi_ptr0. simpl length.
      rewrite Nat.Div0.add_mod_idemp_l. done.
    + rewrite bi_max0, bi_size0. simpl length. lia.
    + apply Forall_insert; [done|]. by rewrite length_map.
    + apply Forall_insert; [done|]. by rewrite length_map.
    + intros i t' Hi Hle. simpl length in Hle.
      rewrite (read_slot_insert b (ptr b) t) by (cbn; try done; lia).
      pose proof (lookup_lt_Some _ _ _ Hi) as Hlt.
      rewrite length_app in Hlt. simpl in Hlt.
      destruct (decide (i = length hist)) as [->|Hne].
      * rewrite lookup_app_r, Nat.sub_diag in Hi by lia.
        injection Hi as <-. rewrite bi_ptr0. by rewrite decide_True.
      * rewrite lookup_app_l in Hi by lia.
        rewrite decide_False.
        -- apply bi_slots0; [done | lia].
        -- rewrite bi_ptr0. intros Heq. symmetry in Heq. revert Heq.
           apply mod_distinct; lia.
Qed.

Lemma store_all_inv C d hist b ts :
  (1 <= C)%nat -> buf_inv C d hist b ->
  Forall (fun t => length (t_obs t) = d /\ length (t_next_obs t) = d) ts ->
  exists b', store_all b ts = Ok b' /\ buf_inv C d (hist ++ ts) b'.
Proof.
  intros HC Hb Hts. revert hist b Hb.
  induction Hts as [|t ts [Ho Ho2] _ IH]; intros hist b Hb.
  - exists b. rewrite app_nil_r. done.
  - destruct (store_inv C d hist b t HC Hb Ho Ho2) as (b1 & E1 & Hb1).
    destruct (IH _ _ Hb1) as (b' & E & Hb').
    exists b'. cbn [store_all]. rewrite E1. cbn [mbind result_bind].
    split; [done|]. by rewrite <- app_assoc in Hb'.
Qed.

(** Every residue below [C] is hit by one position of the window
    [k, C + k). *)
Lemma window_covers (C k j : nat) :
  (j < C)%nat -> exists i, (k <= i < C + k)%nat /\ (i mod C)%nat = j.
Proof.
  intros Hj. pose proof (Nat.div_mod_eq k C) as Hk.
  assert (Hr : (k mod C < C)%nat) by (apply Nat.mod_upper_bound; lia).
  destruct (decide (k mod C <= j)%nat).
  - exists (j + (k / C) * C)%nat. split; [nia|].
    rewrite Nat.Div0.mod_add. apply Nat.mod_small. done.
  - exists (j + (S (k / C)) * C)%nat. split; [nia|].
    rewrite Nat.Div0.mod_add. apply Nat.mod_small. done.
Qed.

(** C6. Storing [C + k] transitions whose observations have the row
    width into a fresh buffer of capacity [C >= 1] succeeds and leaves
    [size = C] and [ptr = (C + k) mod C]; every slot holds, as stored,
    a transition whose position in the insertion order lies in
    [k, C + k) and is congruent to the slot number; and the transition
    at position [k] is in the slot under the write pointer. *)
Theorem C6_buffer_wraparound (C k obs_dim act_dim : nat) (ts : list transition) :
  (1 <= C)%nat -> length ts = (C + k)%nat ->
  Forall (fun t => length (t_obs t) = obs_dim /\ length (t_next_obs t) = obs_dim) ts ->
  exists b,
    store_all (ReplayBuffer_init obs_dim act_dim C) ts = Ok b
    /\ size b = C
    /\ ptr b = ((C + k) mod C)%nat
    /\ (forall j, (j < C)%nat ->
          exists i t, (k <= i < C + k)%nat /\ (i mod C)%nat = j
                      /\ ts !! i = Some t /\ read_slot b j = Ok (stored t))
    /\ (exists t, ts !! k = Some t /\ read_slot b (ptr b) = Ok (stored t)).
Proof.
  intros HC Hlen Hts.
  destruct (store_all_inv C obs_dim [] _ ts HC (buf_inv_init C obs_dim act_dim) Hts)
    as (b & E & Hb).
  simpl in Hb. destruct Hb. exists b. split; [done|].
  split; [rewrite bi_size0, Hlen; lia|].
  split; [by rewrite bi_ptr0, Hlen|]. split.
  - intros j Hj. destruct (window_covers C k j Hj) as (i & Hi & Hm).
    destruct (lookup_lt_is_Some_2 ts i) as [t Ht]; [lia|].
    exists i, t. repeat split; try done; try lia.
    rewrite <- Hm. apply bi_slots0; [done | lia].
  - destruct (lookup_lt_is_Some_2 ts k) as [t Ht]; [lia|].
    exists t. split; [done|]. rewrite bi_ptr0, Hlen.
    replace ((C + k) mod C)%nat with (k mod C)%nat.
    + apply bi_slots0; [done | lia].
    + rewrite Nat.add_comm. rewrite <- (Nat.mul_1_l C) at 2.
      by rewrite Nat.Div0.mod_add.
Qed.
End Buffer.

Lemma C6_witness :
  exists b,
    store_all (H := numpy_run) (ReplayBuffer_init 1 3 2)
      [ {| t_obs := [1%float]; t_act := 0; t_rew := 1%float;
           t_next_obs := [2%float]; t_done := false |};
        {| t_obs := [2%float]; t_act := 2; t_rew := 0%float;
           t_next_obs := [3%float]; t_done := false |};
        {| t_obs := [3%float]; t_act := 1; t_rew := 5%float;
           t_next_obs := [4%float]; t_done := true |} ] = Ok b
    /\ size b = 2%nat /\ ptr b = 1%nat
    /\ read_slot b 1
       = Ok {| s_obs := [2%float]; s_act := 2; s_rew := 0%float;
               s_next_obs := [3%float]; s_done := 0 |}.
Proof.
  destruct (C6_buffer_wraparound (H := numpy_run) 2 1 1 3
    [ {| t_obs := [1%float]; t_act := 0; t_rew := 1%float;
         t_next_obs := [2%float]; t_done := false |};
      {| t_obs := [2%float]; t_act := 2; t_rew := 0%float;
         t_next_obs := [3%float]; t_done := false |};
      {| t_obs := [3%float]; t_act := 1; t_rew := 5%float;
         t_next_obs := [4%float]; t_done := true |} ])
    as (b & E & Hs & Hp & _ & (t & Ht & Hr)).
  - lia.
  - reflexivity.
  - repeat constructor.
  - exists b. split; [exact E|]. split; [exact Hs|]. split; [exact Hp|].
    rewrite Hp in Hr. injection Ht as <-. exact Hr.
Defined.

(** ** The agent's replay *)

Section Agent.
Context `{NumPy} `{Torch}.

Lemma setitem_inv {A} (l : list A) i x l' :
  setitem l i x = Ok l' -> (i < length l)%nat /\ l' = <[i := x]> l.
Proof. unfold setitem. case_bool_decide; [|done]. by intros [= <-]. Qed.

(** Row [b] of the assigned matrix is row [b] of the predictions with
    the single entry of the taken action replaced. *)
Lemma assign_taken_spec target_full actions target T :
  assign_taken target_full actions target = Ok T ->
  length T = length target_full
  /\ forall b row a y,
       target_full !! b = Some row -> actions !! b = Some a ->
       target !! b = Some y ->
       (Z.to_nat a < length row)%nat
       /\ T !! b = Some (<[Z.to_nat a := to_f32 y]> row).
Proof.
  revert actions target T.
  induction target_full as [|row0 rows IH];
    intros [|a0 acts] [|y0 ys] T E; simpl in E; try done.
  - injection E as <-. split; [done|]. intros b. by destruct b.
  - apply bind_Ok in E as (row' & Er & E). apply bind_Ok in E as (rows' & Ers & E).
    injection E as <-. apply setitem_inv in Er as [Hlt ->].
    apply IH in Ers as [Hl Hs]. split; [simpl; by rewrite Hl|].
    intros [|b] row a y Hrow Ha Hy; simpl in *.
    + injection Hrow as <-. injection Ha as <-. injection Hy as <-. done.
    + by apply Hs.
Qed.

Lemma td_target_spec g rewards done q_next ys :
  td_target g rewards done q_next = Ok ys ->
  length ys = length rewards
  /\ forall b r d row,
       rewards !! b = Some r -> done !! b = Some d -> q_next !! b = Some row ->
       ys !! b
       = Some (PrimFloat.add r
                 (PrimFloat.mul
                    (PrimFloat.mul (float_of_uint8 (to_uint8 (1 - d))) g)
                    (amax row))).
Proof.
  revert done q_next ys.
  induction rewards as [|r0 rs IH]; intros [|d0 ds] [|row0 rows] ys E;
    simpl in E; try done.
  - injection E as <-. split; [done|]. intros b. by destruct b.
  - apply bind_Ok in E as (ys' & Ey & E). injection E as <-.
    apply IH in Ey as [Hl Hs]. split; [simpl; by rewrite Hl|].
    intros [|b] r d row Hr Hd Hrow; simpl in *.
    + by injection Hr as <-; injection Hd as <-; injection Hrow as <-.
    + by apply Hs.
Qed.

Lemma replay_Ok self batch_size idxs self' :
  ~ (size (memory self) < batch_size)%nat ->
  replay self batch_size idxs = Ok self' ->
  exists mb T,
    sample_batch (memory self) idxs = Ok mb
    /\ replay_target self mb = Ok T
    /\ model self' = train_one_step (model self) (mb_s mb) T
    /\ epsilon self' = decay_epsilon self
    /\ memory self' = memory self
    /\ epsilon_min self' = epsilon_min self
    /\ epsilon_decay self' = epsilon_decay self.
Proof.
  intros Hsz E. unfold replay in E. rewrite bool_decide_eq_false_2 in E by done.
  apply bind_Ok in E as (mb & Emb & E). apply bind_Ok in E as (T & ET & E).
  injection E as <-. exists mb, T. done.
Qed.

(** C7. In a replay call that trains, the matrix handed to the training
    step has the shape of the predictions for the sampled states; in
    the row of each sampled transition the entry in the column of the
    taken action is the TD target
    [r + (1 - done) * gamma * max Q(s')] as stored in the float32
    matrix, and every other entry is the prediction. *)
Theorem C7_target_matrix_masking (self : DQNAgent) (batch_size : nat)
  (idxs : list nat) (self' : DQNAgent) :
  ~ (size (memory self) < batch_size)%nat ->
  replay self batch_size idxs = Ok self' ->
  exists mb T,
    sample_batch (memory self) idxs = Ok mb
    /\ replay_target self mb = Ok T
    /\ model self' = train_one_step (model self) (mb_s mb) T
    /\ length T = length (predict (model self) (mb_s mb))
    /\ forall b q_row a r d q_next,
         predict (model self) (mb_s mb) !! b = Some q_row ->
         mb_a mb !! b = Some a -> 0 <= a ->
         mb_r mb !! b = Some r -> mb_d mb !! b = Some d ->
         predict (model self) (mb_s2 mb) !! b = Some q_next ->
         exists t_row,
           T !! b = Some t_row
           /\ length t_row = length q_row
           /\ a < Z.of_nat (length q_row)
           /\ t_row !! Z.to_nat a
              = Some (to_f32
                        (PrimFloat.add r
                           (PrimFloat.mul
                              (PrimFloat.mul (float_of_uint8 (to_uint8 (1 - d)))
                                             (gamma self))
                              (amax q_next))))
           /\ forall c, c <> Z.to_nat a -> t_row !! c = q_row !! c.
Proof.
  intros Hsz E.
  destruct (replay_Ok _ _ _ _ Hsz E) as (mb & T & Emb & ET & Hm & _).
  exists mb, T. split; [done|]. split; [done|]. split; [done|].
  unfold replay_target in ET. apply bind_Ok in ET as (ys & Ey & ET).
  apply td_target_spec in Ey as [Hly Hy].
  apply assign_taken_spec in ET as [HlT HT].
  split; [done|].
  intros b q_row a r d q_next Hq Ha Ha0 Hr Hd Hqn.
  specialize (Hy b r d q_next Hr Hd Hqn).
  destruct (HT b q_row a _ Hq Ha Hy) as [Hlt HTb].
  eexists. split; [exact HTb|]. split; [apply length_insert|].
  split; [lia|]. split.
  - by apply list_lookup_insert_eq.
  - intros c Hc. by apply list_lookup_insert_ne.
Qed.
End Agent.

Lemma C7_witness :
  exists a2 mb T,
    @replay numpy_run torch_run agent_run 1 [0%nat] = Ok a2
    /\ sample_batch (memory agent_run) [0%nat] = Ok mb
    /\ @replay_target numpy_run torch_run agent_run mb = Ok T
    /\ T = [[0.5%float;
             PrimFloat.add 2%float
               (PrimFloat.mul (PrimFloat.mul 1%float 0.95%float) 3%float)]].
Proof.
  assert (E2 : exists a2, @replay numpy_run torch_run agent_run 1 [0%nat] = Ok a2).
  { eexists. vm_compute. reflexivity. }
  destruct E2 as [a2 E2].
  destruct (@C7_target_matrix_masking numpy_run torch_run agent_run 1%nat [0%nat] a2)
    as (mb & T & Emb & ET & _ & _ & _); [cbn; lia | exact E2 |].
  exists a2, mb, T. split; [exact E2|]. split; [exact Emb|]. split; [exact ET|].
  vm_compute in Emb. injection Emb as <-.
  vm_compute in ET. injection ET as <-. vm_compute. reflexivity.
Defined.

(** ** The exploration schedule *)

Section Epsilon.
Context `{NumPy} `{Torch}.





End Epsilon.



(** * Further properties of the environment *)

Lemma holding_value_zeros n demand : holding_value (replicate n 0) demand = 0.
Proof.
  revert demand. induction n as [|n IH]; intros [|d demand]; simpl; try done.
  by rewrite IH.
Qed.

(** X1. [__init__] raises [IndexError] on a table without rows; on a
    table with at least one row it returns an environment at step 0 that
    owns nothing, holds the initial investment as cash, shows the first
    row as valuations, has [3 ^ n_grid] actions, and whose portfolio
    value is the initial investment. *)
Theorem X1_init_cases (data : list (list Z)) (investment : Z) :
  (data = [] -> init data investment = Raise IndexError)
  /\ (forall row rest, data = row :: rest ->
        exists env,
          init data investment = Ok env
          /\ cur_step env = 0%nat /\ n_step env = length data
          /\ n_grid env = length row
          /\ grid_owned env = replicate (length row) 0
          /\ grid_demand env = row
          /\ vehicle_in_hand env = investment
          /\ length (action_list env) = (3 ^ length row)%nat
          /\ portfolio_value env = investment).
Proof.
  split.
  - intros ->. reflexivity.
  - intros row rest ->. eexists. split.
    + unfold init, reset. cbn [head default getitem lookup list_lookup mbind result_bind
                              grid_demand_history n_grid].
      rewrite get_obs_wf; cbn; [reflexivity | apply length_replicate | done | done].
    + cbn. repeat split; try done.
      * apply length_action_list.
      * unfold portfolio_value. cbn. rewrite holding_value_zeros. lia.
Qed.

Lemma X1_witness :
  exists env,
    init [[10; 20]; [12; 18]] 100 = Ok env
    /\ grid_owned env = [0; 0] /\ vehicle_in_hand env = 100
    /\ portfolio_value env = 100.
Proof.
  destruct (X1_init_cases [[10; 20]; [12; 18]] 100) as [_ H].
  destruct (H [10; 20] [[12; 18]] eq_refl)
    as (env & E & _ & _ & _ & Ho & _ & Hc & _ & Hv).
  exists env. done.
Defined.

Lemma step_same_config fuel env a env' out :
  step fuel env a = Ok (env', out) -> same_config env env'.
Proof.
  intros E. apply step_Ok in E as (_ & row & vec & st & _ & _ & _ & -> & _).
  by repeat split.
Qed.

Lemma reset_same_config env env' obs :
  reset env = Ok (env', obs) -> same_config env env'.
Proof.
  intros E. apply reset_Ok in E as (row & _ & ? & ? & ? & ? & _ & _ & _ & _ & ? & ? & ?).
  by repeat split.
Qed.

Lemma same_config_trans e1 e2 e3 :
  same_config e1 e2 -> same_config e2 e3 -> same_config e1 e3.
Proof.
  intros (?&?&?&?&?&?&?) (?&?&?&?&?&?&?). repeat split; congruence.
Qed.

Lemma run_same_config fuel calls env env' :
  run fuel calls env = Ok env' -> same_config env env'.
Proof.
  revert env. induction calls as [|[|a] calls IH]; intros env E.
  - simpl in E. injection E as <-. by repeat split.
  - cbn [run] in E. apply bind_Ok in E as ([env1 obs] & E1 & E).
    eapply same_config_trans; [by eapply reset_same_config | by apply IH].
  - cbn [run] in E. apply bind_Ok in E as ([env1 out] & E1 & E).
    eapply same_config_trans; [by eapply step_same_config | by apply IH].
Qed.

Lemma reset_config env env' :
  same_config env env' -> reset env' = reset env.
Proof.
  intros (Hh & Hn & Hg & Hi & Has & Hal & Hsd). unfold reset, _get_obs.
  rewrite Hh. destruct (getitem (grid_demand_history env) 0); [|done..].
  cbn. by rewrite Hn, Hg, Hi, Has, Hal, Hsd.
Qed.

Lemma reset_obs env env' obs :
  reset env = Ok (env', obs) ->
  obs = grid_owned env' ++ grid_demand env' ++ [vehicle_in_hand env'].
Proof.
  unfold reset. intros E. apply bind_Ok in E as (row & _ & E).
  apply bind_Ok in E as (o & Eo & E). injection E as <- <-.
  unfold _get_obs in Eo. case_bool_decide; [|done]. by injection Eo as <-.
Qed.

(** X2. [reset] undoes everything: after any sequence of returning
    [reset] and [step] calls on a freshly built environment, [reset]
    returns exactly the freshly built environment, with the observation
    made of zero counts, the first row and the initial investment. *)
Theorem X2_reset_restores (data : list (list Z)) (investment : Z)
  (env0 : MultiGridEnv) (fuel : nat) (calls : list call) (env' : MultiGridEnv) :
  init data investment = Ok env0 ->
  run fuel calls env0 = Ok env' ->
  reset env'
  = Ok (env0, replicate (n_grid env0) 0 ++ grid_demand env0 ++ [investment]).
Proof.
  intros E0 E. rewrite (reset_config env0 env') by (by eapply run_same_config).
  unfold init in E0. apply bind_Ok in E0 as ([env1 obs] & Er & E0).
  injection E0 as <-.
  rewrite (reset_config _ env1 (reset_same_config _ _ _ Er)). rewrite Er.
  pose proof (reset_obs _ _ _ Er) as ->.
  apply reset_Ok in Er as (row & _ & _ & _ & Hg & _ & _ & Ho & _ & Hv & _).
  cbn in Hg, Ho, Hv. by rewrite Ho, Hv, Hg.
Qed.

Lemma X2_witness :
  exists env0 env',
    init [[10; 20]; [12; 18]; [11; 25]] 100 = Ok env0
    /\ run 50 [Step 8; Step 0] env0 = Ok env'
    /\ reset env' = Ok (env0, [0; 0; 10; 20; 100]).
Proof.
  eexists. eexists. split; [vm_compute; reflexivity|].
  split; [vm_compute; reflexivity|].
  match goal with
  | |- reset ?e' = Ok (?e0, _) =>
      assert (E0 : init [[10; 20]; [12; 18]; [11; 25]] 100 = Ok e0)
        by (vm_compute; reflexivity);
      assert (E1 : run 50 [Step 8; Step 0] e0 = Ok e') by (vm_compute; reflexivity);
      exact (X2_reset_restores _ _ _ _ _ _ E0 E1)
  end.
Defined.







Lemma step_value fuel env a env' out :
  step fuel env a = Ok (env', out) ->
  out_reward out = portfolio_value env' - portfolio_value env
  /\ out_cur_val out = portfolio_value env'
  /\ cur_step env' = S (cur_step env).
Proof.
  intros E.
  apply step_Ok in E as (_ & row & vec & st & _ & _ & _ & -> & _ & _ & Hrew & Hcur & _).
  unfold portfolio_value. cbn. repeat split; [lia | lia].
Qed.



(** *** What a trade does to each unit *)

Lemma split_action_elem i vec j :
  (j ∈ (split_action i vec).1 <-> exists k, j = (i + k)%nat /\ vec !! k = Some 0)
  /\ (j ∈ (split_action i vec).2 <-> exists k, j = (i + k)%nat /\ vec !! k = Some 2).
Proof.
  revert i. induction vec as [|a vec IH]; intros i.
  - simpl. split; split; try (intros H; by apply elem_of_nil in H);
      intros (k & _ & Hk); done.
  - specialize (IH (S i)). destruct IH as [IHs IHb]. simpl.
    destruct (split_action (S i) vec) as [s b]. simpl in *.
    assert (Hshift : forall v, (exists k, j = (S i + k)%nat /\ vec !! k = Some v)
                          <-> (exists k, j = (i + S k)%nat /\ vec !! k = Some v)).
    { intros v. split; intros (k & -> & Hk); exists k; split; [lia | done | lia | done]. }
    assert (Hcons : forall v, (exists k, j = (i + k)%nat /\ (a :: vec) !! k = Some v)
                         <-> (j = i /\ a = v)
                             \/ (exists k, j = (i + S k)%nat /\ vec !! k = Some v)).
    { intros v. split.
      - intros ([|k] & -> & Hk); simpl in Hk.
        + left. split; [lia | congruence].
        + right. by exists k.
      - intros [[-> ->] | (k & -> & Hk)].
        + exists 0%nat. split; [lia | done].
        + by exists (S k). }
    rewrite !Hcons, <- !Hshift, <- IHs, <- IHb.
    destruct (Z.eqb_spec a 0) as [->|Hn0]; [|destruct (Z.eqb_spec a 2) as [->|Hn2]];
      simpl; rewrite ?elem_of_cons; naive_solver lia.
Qed.

Lemma sell_index_elem vec j : j ∈ sell_index vec <-> vec !! j = Some 0.
Proof.
  unfold sell_index. rewrite (proj1 (split_action_elem 0 vec j)). split.
  - by intros (k & -> & Hk).
  - intros Hj. by exists j.
Qed.

Lemma buy_index_elem vec j : j ∈ buy_index vec <-> vec !! j = Some 2.
Proof.
  unfold buy_index. rewrite (proj2 (split_action_elem 0 vec j)). split.
  - by intros (k & -> & Hk).
  - intros Hj. by exists j.
Qed.

Lemma zero_at_lookup_notin idx (owned : list Z) j :
  j ∉ idx -> zero_at idx owned !! j = owned !! j.
Proof.
  revert owned. induction idx as [|i idx IH]; intros owned Hj; simpl; [done|].
  apply not_elem_of_cons in Hj as [Hne Hj].
  rewrite IH by done. by apply list_lookup_insert_ne.
Qed.

Lemma zero_at_lookup_in idx (owned : list Z) j :
  j ∈ idx -> (j < length owned)%nat -> zero_at idx owned !! j = Some 0.
Proof.
  revert owned. induction idx as [|i idx IH]; intros owned Hj Hl; simpl.
  - by apply elem_of_nil in Hj.
  - destruct (decide (j ∈ idx)) as [Hin|Hnin].
    + apply IH; [done | by rewrite length_insert].
    + apply elem_of_cons in Hj as [->|Hj]; [|done].
      rewrite zero_at_lookup_notin by done. by apply list_lookup_insert_eq.
Qed.

(** A pass never lowers a count and leaves the units it does not list
    alone. *)
Lemma buy_pass_frame demand idx owned cash b owned' cash' b' j :
  buy_pass demand idx (owned, cash, b) = Ok (owned', cash', b') ->
  (j ∉ idx -> owned' !! j = owned !! j)
  /\ (forall x, owned !! j = Some x -> exists y, owned' !! j = Some y /\ x <= y).
Proof.
  revert owned cash b. induction idx as [|i idx IH]; intros owned cash b E.
  - simpl in E. injection E as <- <- <-. split; [done|].
    intros x Hx. exists x. split; [done | lia].
  - apply buy_pass_cons in E as (d & Hd & [(Hlt & o & Ho & E) | (Hle & E)]);
      apply IH in E as [Hout Hmono].
    + split.
      * intros Hj. apply not_elem_of_cons in Hj as [Hne Hj].
        rewrite Hout by done. by apply list_lookup_insert_ne.
      * intros x Hx. destruct (decide (i = j)) as [->|Hne].
        -- destruct (Hmono (o + 1)) as (y & Hy & Hle).
           { apply list_lookup_insert_eq. by eapply lookup_lt_Some. }
           exists y. split; [done|]. assert (x = o) by congruence. lia.
        -- apply Hmono. by rewrite list_lookup_insert_ne.
    + split; [|done]. intros Hj. apply not_elem_of_cons in Hj as [_ Hj]. by apply Hout.
Qed.

Lemma buy_loop_frame fuel demand idx owned cash owned' cash' j :
  buy_loop fuel demand idx (owned, cash) = Ok (owned', cash') ->
  (j ∉ idx -> owned' !! j = owned !! j)
  /\ (forall x, owned !! j = Some x -> exists y, owned' !! j = Some y /\ x <= y).
Proof.
  revert owned cash. induction fuel as [|fuel IH]; intros owned cash E; [done|].
  cbn [buy_loop] in E. apply bind_Ok in E as ([[o1 c1] b1] & E1 & E).
  simpl in E1. apply (buy_pass_frame _ _ _ _ _ _ _ _ j) in E1 as [Hout1 Hmono1].
  destruct b1.
  - apply IH in E as [Hout Hmono]. split.
    + intros Hj. by rewrite Hout, Hout1.
    + intros x Hx. destruct (Hmono1 x Hx) as (y1 & Hy1 & Hle1).
      destruct (Hmono y1 Hy1) as (y & Hy & Hle). exists y. split; [done | lia].
  - by injection E as <- <-.
Qed.

(** X5. Per unit, a trade does what the unit's mark says: the count of
    a unit marked sell becomes 0, the count of a unit marked buy does not
    drop, and the count of any other unit is unchanged. *)
Theorem X5_trade_per_unit (fuel : nat) (demand vec owned : list Z) (cash : Z)
  (owned' : list Z) (cash' : Z) :
  length vec = length demand -> length vec = length owned ->
  trade_vec fuel demand vec (owned, cash) = Ok (owned', cash') ->
  forall j a x, vec !! j = Some a -> owned !! j = Some x ->
    (a = 0 -> owned' !! j = Some 0)
    /\ (a = 2 -> exists y, owned' !! j = Some y /\ x <= y)
    /\ (a <> 0 -> a <> 2 -> owned' !! j = Some x).
Proof.
  intros Hd Ho E j a x Ha Hx. rewrite trade_vec_sell_then_buy in E by done.
  assert (Hframe :
    (j ∉ buy_index vec -> owned' !! j = zero_at (sell_index vec) owned !! j)
    /\ (forall x, zero_at (sell_index vec) owned !! j = Some x ->
          exists y, owned' !! j = Some y /\ x <= y)).
  { unfold buy_phase in E. destruct (buy_index vec) as [|i b] eqn:Eb.
    - injection E as <- <-. split; [done|]. intros z Hz. exists z. split; [done | lia].
    - by eapply buy_loop_frame. }
  destruct Hframe as [Hout Hmono].
  pose proof (lookup_lt_Some _ _ _ Hx) as Hj.
  split; [|split].
  - intros ->. rewrite Hout.
    + apply zero_at_lookup_in; [by apply sell_index_elem | done].
    + rewrite buy_index_elem. congruence.
  - intros ->. apply Hmono. rewrite zero_at_lookup_notin; [done|].
    rewrite sell_index_elem. congruence.
  - intros H0 H2. rewrite Hout.
    + rewrite zero_at_lookup_notin; [done|]. rewrite sell_index_elem. congruence.
    + rewrite buy_index_elem. congruence.
Qed.

Lemma X5_witness :
  trade_vec 10 [10; 20; 30] [2; 0; 1] ([1; 3; 4], 5) = Ok ([7; 0; 4], 5)
  /\ ([7; 0; 4] : list Z) !! 1%nat = Some 0.
Proof.
  split; [reflexivity|].
  eapply (X5_trade_per_unit 10 [10; 20; 30] [2; 0; 1] [1; 3; 4] 5 [7; 0; 4] 5
            eq_refl eq_refl eq_refl 1%nat 0 3); reflexivity.
Defined.

(** *** Cash is never spent down to zero *)

Lemma buy_pass_pos demand idx owned cash b owned' cash' b' :
  prices_ge 0 demand idx ->
  buy_pass demand idx (owned, cash, b) = Ok (owned', cash', b') ->
  0 < cash -> 0 < cash'.
Proof.
  intros Hp. revert owned cash b.
  induction Hp as [|i idx Hi _ IH]; intros owned cash b E Hc.
  - simpl in E. by injection E as <- <- <-.
  - apply buy_pass_cons in E as (d & Hd & [(Hlt & o & Ho & E) | (Hle & E)]).
    + apply IH in E; [done | lia].
    + by apply IH in E.
Qed.

Lemma buy_loop_pos fuel demand idx owned cash owned' cash' :
  prices_ge 0 demand idx ->
  buy_loop fuel demand idx (owned, cash) = Ok (owned', cash') ->
  0 < cash -> 0 < cash'.
Proof.
  intros Hp. revert owned cash. induction fuel as [|fuel IH]; intros owned cash E Hc.
  - done.
  - cbn [buy_loop] in E. apply bind_Ok in E as ([[o1 c1] b1] & E1 & E).
    simpl in E1. apply (buy_pass_pos _ _ _ _ _ _ _ _ Hp) in E1; [|done].
    destruct b1; [by apply IH in E | by injection E as <- <-].
Qed.

Lemma trade_vec_pos fuel demand vec owned cash owned' cash' :
  Forall (fun d => 0 <= d) demand ->
  trade_vec fuel demand vec (owned, cash) = Ok (owned', cash') ->
  Forall (fun x => 0 <= x) owned -> 0 < cash -> 0 < cash'.
Proof.
  intros Hd E Ho Hc. unfold trade_vec in E.
  destruct (split_action 0 vec) as [s b].
  apply bind_Ok in E as ([o1 c1] & E1 & E).
  assert (Hc1 : 0 < c1).
  { destruct s as [|i s].
    - by injection E1 as <- <-.
    - apply (sell_all_inv _ _ _ _ _ _ Hd) in E1 as (_ & _ & ?); [lia | done]. }
  destruct b as [|j b].
  - by injection E as <- <-.
  - eapply buy_loop_pos; [|exact E|done]. by apply prices_ge_of_nonneg.
Qed.

Lemma step_pos fuel env a env' out :
  solvent env -> 0 < vehicle_in_hand env ->
  step fuel env a = Ok (env', out) -> 0 < vehicle_in_hand env'.
Proof.
  intros (Hd & Hi & Ho & _) Hc E.
  apply step_Ok in E as (_ & row & vec & [o' c'] & Hr & _ & Ht & -> & _).
  assert (Hrow : Forall (fun d => 0 <= d) row).
  { unfold nonneg_data in Hd. rewrite Forall_lookup in Hd. by apply (Hd _ _ Hr). }
  cbn. by eapply trade_vec_pos.
Qed.

(** X6. With a positive initial investment and a table without negative
    entries, the cash is strictly positive after every returning call:
    a unit is bought only while the cash strictly exceeds its valuation,
    so the cash is never spent down to zero. *)
Theorem X6_cash_stays_positive (data : list (list Z)) (investment : Z)
  (env0 : MultiGridEnv) (fuel : nat) (calls : list call) (env' : MultiGridEnv) :
  nonneg_data data -> 0 < investment ->
  init data investment = Ok env0 ->
  run fuel calls env0 = Ok env' ->
  0 < vehicle_in_hand env'.
Proof.
  intros Hd Hi E0 E.
  assert (H0 : solvent env0 /\ 0 < vehicle_in_hand env0
               /\ 0 < initial_investment env0).
  { apply init_Ok in E0 as (row & _ & Hh & _ & _ & Hii & _ & Ho & _ & Hv & _).
    unfold solvent. rewrite Hh, Hii, Ho, Hv. repeat split; try done; try lia.
    apply Forall_replicate. lia. }
  clear E0. revert env0 H0 E.
  induction calls as [|[|a] calls IH]; intros env (Hs & Hc & Hi0) E.
  - simpl in E. by injection E as <-.
  - cbn [run] in E. apply bind_Ok in E as ([env1 obs] & E1 & E).
    apply (IH env1); [|done]. destruct Hs as (Hdd & Hii & _).
    pose proof (reset_solvent _ _ _ Hdd Hii E1) as Hs1.
    apply reset_Ok in E1 as (row & _ & _ & _ & _ & Hi1 & _ & _ & _ & Hv1 & _).
    rewrite Hv1, Hi1. done.
  - cbn [run] in E. apply bind_Ok in E as ([env1 out] & E1 & E).
    apply (IH env1); [|done]. split; [by eapply step_solvent|].
    split; [by eapply step_pos|].
    apply step_same_config in E1 as (_ & _ & _ & -> & _). done.
Qed.

Lemma X6_witness :
  exists env0 env',
    init [[10; 20]; [10; 5]; [11; 25]] 100 = Ok env0
    /\ run 50 [Step 6; Step 2] env0 = Ok env'
    /\ 0 < vehicle_in_hand env'.
Proof.
  eexists. eexists. split; [vm_compute; reflexivity|].
  split; [vm_compute; reflexivity|].
  eapply (X6_cash_stays_positive [[10; 20]; [10; 5]; [11; 25]] 100 _ 50
            [Step 6; Step 2]).
  - repeat constructor; lia.
  - lia.
  - vm_compute. reflexivity.
  - vm_compute. reflexivity.
Defined.

(** *** One buy-marked unit *)




(** *** Steps return *)







(** *** What [step] raises and returns *)

(** X9. On a well-shaped environment [step] raises [AssertionError]
    exactly for the actions outside [0, 3 ^ n_grid), also when no next
    row is left, and it never raises [ValueError]. *)
Theorem X9_step_assertion (fuel : nat) (env : MultiGridEnv) (a : Z) :
  wf_env env ->
  (step fuel env a = Raise AssertionError
   <-> ~ (0 <= a < Z.of_nat (3 ^ n_grid env)))
  /\ step fuel env a <> Raise ValueError.
Proof.
  intros Hwf.
  destruct (decide (a ∈ action_space env)) as [Ha|Hna].
  - assert (Hcases : step fuel env a = Raise IndexError
                     \/ step fuel env a = OutOfFuel
                     \/ exists env' out, step fuel env a = Ok (env', out)).
    { destruct (le_lt_dec (n_step env) (S (cur_step env))).
      - left. by apply step_out_of_bounds.
      - right. by apply step_in_bounds. }
    pose proof Ha as Ha'. rewrite (wf_action_space _ Hwf) in Ha'.
    apply elem_of_action_space in Ha'.
    split; [split|]; destruct Hcases as [E | [E | (env' & out & E)]];
      rewrite E; try done; intros; lia.
  - assert (E : step fuel env a = Raise AssertionError).
    { unfold step. by rewrite bool_decide_eq_false_2. }
    rewrite E. split; [|done]. split; [|done]. intros _ Hr. apply Hna.
    rewrite (wf_action_space _ Hwf). by apply elem_of_action_space.
Qed.

Lemma X9_witness :
  exists env,
    init [[10; 20]; [12; 18]] 100 = Ok env
    /\ step 5 env 9 = Raise AssertionError
    /\ step 5 env (-1) = Raise AssertionError.
Proof.
  eexists. split; [vm_compute; reflexivity|].
  match goal with
  | |- step 5 ?e 9 = _ /\ _ =>
      assert (Hwf : wf_env e)
        by (constructor; try reflexivity; cbn; [repeat constructor | lia]);
      split;
      [ apply (proj1 (X9_step_assertion 5 e 9 Hwf))
      | apply (proj1 (X9_step_assertion 5 e (-1) Hwf)) ]
  end; cbn; lia.
Defined.

Lemma step_shape fuel env a env' out :
  wf_env env ->
  step fuel env a = Ok (env', out) ->
  wf_env env'
  /\ cur_step env' = S (cur_step env)
  /\ grid_demand_history env !! cur_step env' = Some (grid_demand env')
  /\ out_obs out = grid_owned env' ++ grid_demand env' ++ [vehicle_in_hand env']
  /\ length (out_obs out) = (2 * n_grid env + 1)%nat
  /\ (out_done out = true <-> S (cur_step env') = n_step env).
Proof.
  intros Hwf E. pose proof (step_wf _ _ _ _ _ Hwf E) as (Hwf' & Hc & _).
  pose proof E as E'.
  apply step_Ok in E'
    as (Ha & row & vec & st & Hr & Hv & Ht & Henv & _ & Hl & _ & _ & Hd).
  pose proof (wf_row _ _ _ Hwf Hr) as Hrow.
  rewrite (step_eq fuel env a row vec st) in E by (try done; congruence).
  injection E as <- <-. cbn.
  split; [by subst|]. split; [done|]. split; [done|]. split; [done|]. split.
  - rewrite !length_app. simpl. lia.
  - rewrite bool_decide_eq_true. lia.
Qed.

(** X10. A returning step on a well-shaped environment hands back a
    well-shaped environment one step further, an observation of length
    [2 * n_grid + 1] made of the new counts, the new row and the new
    cash, and [done = true] exactly when the new step is the last row. *)
Theorem X10_step_observation (fuel : nat) (env : MultiGridEnv) (a : Z)
  (env' : MultiGridEnv) (out : step_out) :
  wf_env env ->
  step fuel env a = Ok (env', out) ->
  wf_env env'
  /\ cur_step env' = S (cur_step env)
  /\ grid_demand_history env !! cur_step env' = Some (grid_demand env')
  /\ out_obs out = grid_owned env' ++ grid_demand env' ++ [vehicle_in_hand env']
  /\ length (out_obs out) = (2 * n_grid env + 1)%nat
  /\ (out_done out = true <-> S (cur_step env') = n_step env).
Proof. apply step_shape. Qed.

Lemma X10_witness :
  exists env env' out,
    init [[10; 20]; [12; 18]] 100 = Ok env
    /\ step 50 env 6 = Ok (env', out)
    /\ out_obs out = [8; 0; 12; 18; 4] /\ out_done out = true.
Proof.
  eexists. eexists. eexists. split; [vm_compute; reflexivity|].
  split; [vm_compute; reflexivity|].
  match goal with
  | |- out_obs ?o = _ /\ _ =>
      assert (E : exists e e', init [[10; 20]; [12; 18]] 100 = Ok e
                               /\ wf_env e /\ step 50 e 6 = Ok (e', o))
  end.
  { eexists. eexists. split; [vm_compute; reflexivity|]. split.
    - constructor; try reflexivity; cbn; [repeat constructor | lia].
    - vm_compute. reflexivity. }
  destruct E as (e & e' & _ & Hwf & E).
  destruct (X10_step_observation 50 e 6 e' _ Hwf E) as (_ & _ & _ & _ & _ & Hd).
  split; reflexivity.
Defined.

(** * Further properties of the replay buffer *)

Section BufferMore.
Context `{NumPy}.

Lemma buffer_fill (C obs_dim act_dim : nat) (ts : list transition) :
  (1 <= C)%nat ->
  Forall (fun t => length (t_obs t) = obs_dim /\ length (t_next_obs t) = obs_dim) ts ->
  exists b,
    store_all (ReplayBuffer_init obs_dim act_dim C) ts = Ok b
    /\ size b = (length ts `min` C)%nat
    /\ ptr b = (length ts mod C)%nat
    /\ max_size b = C
    /\ (forall i t, ts !! i = Some t -> (length ts <= i + C)%nat ->
          read_slot b (i mod C) = Ok (stored t))
    /\ (forall j, (j < size b)%nat ->
          exists i t, ts !! i = Some t /\ read_slot b j = Ok (stored t)).
Proof.
  intros HC Hts.
  destruct (store_all_inv C obs_dim [] _ ts HC (buf_inv_init C obs_dim act_dim) Hts)
    as (b & E & Hb).
  simpl in Hb. destruct Hb. exists b. repeat split; try done.
  intros j Hj. rewrite bi_size0 in Hj.
  destruct (le_lt_dec (length ts) C) as [Hle|Hgt].
  - destruct (lookup_lt_is_Some_2 ts j) as [t Ht]; [lia|].
    exists j, t. split; [done|]. rewrite <- (Nat.mod_small j C) by lia.
    apply bi_slots0; [done | lia].
  - destruct (window_covers C (length ts - C) j) as (i & Hi & Hm); [lia|].
    destruct (lookup_lt_is_Some_2 ts i) as [t Ht]; [lia|].
    exists i, t. split; [done|]. rewrite <- Hm. apply bi_slots0; [done | lia].
Qed.

(** X11. Storing any number [n] of well-shaped transitions into a fresh
    buffer of capacity [C >= 1] succeeds and leaves [size = min n C],
    [ptr = n mod C] and [max_size = C]; each of the last [C] transitions
    sits, as stored, in the slot numbered by its position modulo [C];
    every slot below [size] holds one of the stored transitions, so an
    index drawn below [size] never reads an unwritten slot. *)
Theorem X11_buffer_fill (C obs_dim act_dim : nat) (ts : list transition) :
  (1 <= C)%nat ->
  Forall (fun t => length (t_obs t) = obs_dim /\ length (t_next_obs t) = obs_dim) ts ->
  exists b,
    store_all (ReplayBuffer_init obs_dim act_dim C) ts = Ok b
    /\ size b = (length ts `min` C)%nat
    /\ ptr b = (length ts mod C)%nat
    /\ max_size b = C
    /\ (forall i t, ts !! i = Some t -> (length ts <= i + C)%nat ->
          read_slot b (i mod C) = Ok (stored t))
    /\ (forall j, (j < size b)%nat ->
          exists i t, ts !! i = Some t /\ read_slot b j = Ok (stored t)).
Proof. apply buffer_fill. Qed.

Lemma setrow_wrong_width buf i src d :
  (i < length buf)%nat -> Forall (fun row => length row = d) buf ->
  length src <> d -> length src <> 1%nat ->
  setrow buf i src = Raise ValueError.
Proof.
  intros Hi Hrows Hd H1. unfold setrow.
  destruct (getitem_lt buf i Hi) as (old & -> & Hold). cbn [mbind result_bind].
  rewrite Forall_lookup in Hrows. specialize (Hrows _ _ Hold). simpl in Hrows.
  rewrite bool_decide_eq_false_2 by congruence.
  destruct src as [|x [|y src]]; simpl in *; done.
Qed.

(** X12. [store] raises [IndexError] on a buffer of capacity 0, and on a
    buffer of capacity at least one it raises [ValueError] for a
    transition whose observation has neither the row width nor a single
    element. *)
Theorem X12_store_errors (C obs_dim act_dim : nat) (ts : list transition)
  (b : ReplayBuffer) (t : transition) :
  store (ReplayBuffer_init obs_dim act_dim 0) t = Raise IndexError
  /\ ((1 <= C)%nat ->
      Forall (fun t => length (t_obs t) = obs_dim /\ length (t_next_obs t) = obs_dim) ts ->
      store_all (ReplayBuffer_init obs_dim act_dim C) ts = Ok b ->
      length (t_obs t) <> obs_dim -> length (t_obs t) <> 1%nat ->
      store b t = Raise ValueError).
Proof.
  split; [reflexivity|]. intros HC Hts E Hd H1.
  destruct (store_all_inv C obs_dim [] _ ts HC (buf_inv_init C obs_dim act_dim) Hts)
    as (b' & E' & Hb).
  rewrite E in E'. injection E' as <-.
  unfold store.
  rewrite (setrow_wrong_width (obs1_buf b) (ptr b) (t_obs t) obs_dim); try done.
  - rewrite (bi_len1 _ _ _ _ Hb), (bi_ptr _ _ _ _ Hb). apply Nat.mod_upper_bound. lia.
  - apply (bi_rows1 _ _ _ _ Hb).
Qed.
End BufferMore.

Lemma X11_witness :
  exists b,
    store_all (H := numpy_run) (ReplayBuffer_init 1 3 4)
      [ {| t_obs := [1%float]; t_act := 0; t_rew := 1%float;
           t_next_obs := [2%float]; t_done := false |};
        {| t_obs := [2%float]; t_act := 2; t_rew := 0%float;
           t_next_obs := [3%float]; t_done := true |} ] = Ok b
    /\ size b = 2%nat /\ ptr b = 2%nat.
Proof.
  destruct (X11_buffer_fill (H := numpy_run) 4 1 3
    [ {| t_obs := [1%float]; t_act := 0; t_rew := 1%float;
         t_next_obs := [2%float]; t_done := false |};
      {| t_obs := [2%float]; t_act := 2; t_rew := 0%float;
         t_next_obs := [3%float]; t_done := true |} ])
    as (b & E & Hs & Hp & _).
  - lia.
  - repeat constructor.
  - exists b. split; [exact E|]. split; [exact Hs | exact Hp].
Defined.

Lemma X12_witness :
  exists b,
    store_all (H := numpy_run) (ReplayBuffer_init 2 3 4)
      [ {| t_obs := [1%float; 1%float]; t_act := 0; t_rew := 1%float;
           t_next_obs := [2%float; 2%float]; t_done := false |} ] = Ok b
    /\ store (H := numpy_run) b
         {| t_obs := [1%float; 2%float; 3%float]; t_act := 0; t_rew := 1%float;
            t_next_obs := [2%float; 2%float]; t_done := false |}
       = Raise ValueError.
Proof.
  eexists. split; [vm_compute; reflexivity|].
  eapply (proj2 (X12_store_errors (H := numpy_run) 4 2 3
    [ {| t_obs := [1%float; 1%float]; t_act := 0; t_rew := 1%float;
         t_next_obs := [2%float; 2%float]; t_done := false |} ] _ _)).
  - lia.
  - repeat constructor.
  - vm_compute. reflexivity.
  - simpl. lia.
  - simpl. lia.
Defined.

(** *** Sampling *)

Lemma gather_Ok {A} (buf : list A) idxs :
  Forall (fun i => (i < length buf)%nat) idxs ->
  exists xs, gather buf idxs = Ok xs
             /\ length xs = length idxs
             /\ forall k i, idxs !! k = Some i -> xs !! k = buf !! i.
Proof.
  induction 1 as [|i idxs Hi _ (xs & E & Hl & Hk)].
  - exists []. by repeat split.
  - destruct (getitem_lt buf i Hi) as (x & Ex & Lx).
    exists (x :: xs). cbn [gather]. rewrite Ex, E. cbn [mbind result_bind].
    split; [done|]. split; [simpl; by rewrite Hl|].
    intros [|k] j Hj; simpl in *; [congruence | by apply Hk].
Qed.

Lemma gather_out_of_range {A} (buf : list A) idxs i :
  i ∈ idxs -> (length buf <= i)%nat -> gather buf idxs = Raise IndexError.
Proof.
  intros Hin Hi. induction idxs as [|j idxs IH]; [by apply elem_of_nil in Hin|].
  cbn [gather]. destruct (le_lt_dec (length buf) j) as [Hj|Hj].
  - by rewrite getitem_ge.
  - destruct (getitem_lt buf j Hj) as (x & -> & _). cbn [mbind result_bind].
    apply elem_of_cons in Hin as [->|Hin]; [lia|]. by rewrite IH.
Qed.

Lemma read_slot_Ok b i s :
  read_slot b i = Ok s ->
  obs1_buf b !! i = Some (s_obs s) /\ obs2_buf b !! i = Some (s_next_obs s)
  /\ acts_buf b !! i = Some (s_act s) /\ rews_buf b !! i = Some (s_rew s)
  /\ done_buf b !! i = Some (s_done s).
Proof.
  unfold read_slot. intros E.
  apply bind_Ok in E as (o1 & E1 & E). apply bind_Ok in E as (o2 & E2 & E).
  apply bind_Ok in E as (ac & E3 & E). apply bind_Ok in E as (rw & E4 & E).
  apply bind_Ok in E as (dn & E5 & E). injection E as <-.
  apply getitem_Ok in E1, E2, E3, E4, E5. done.
Qed.

Section Sampling.
Context `{NumPy}.

(** X13. From a buffer filled by [store], [sample_batch] on indices all
    below [size] returns five arrays of the length of the index array,
    and position [k] of all five comes from one and the same stored
    transition; an index at or beyond the capacity makes it raise
    [IndexError]. *)
Theorem X13_sample_batch (C obs_dim act_dim : nat) (ts : list transition)
  (b : ReplayBuffer) (idxs : list nat) :
  (1 <= C)%nat ->
  Forall (fun t => length (t_obs t) = obs_dim /\ length (t_next_obs t) = obs_dim) ts ->
  store_all (ReplayBuffer_init obs_dim act_dim C) ts = Ok b ->
  (Forall (fun i => (i < size b)%nat) idxs ->
     exists mb,
       sample_batch b idxs = Ok mb
       /\ length (mb_s mb) = length idxs /\ length (mb_s2 mb) = length idxs
       /\ length (mb_a mb) = length idxs /\ length (mb_r mb) = length idxs
       /\ length (mb_d mb) = length idxs
       /\ forall k, (k < length idxs)%nat ->
            exists t, t ∈ ts
              /\ mb_s mb !! k = Some (s_obs (stored t))
              /\ mb_s2 mb !! k = Some (s_next_obs (stored t))
              /\ mb_a mb !! k = Some (s_act (stored t))
              /\ mb_r mb !! k = Some (s_rew (stored t))
              /\ mb_d mb !! k = Some (s_done (stored t)))
  /\ ((exists i, i ∈ idxs /\ (C <= i)%nat) ->
      sample_batch b idxs = Raise IndexError).
Proof.
  intros HC Hts E.
  destruct (buffer_fill C obs_dim act_dim ts HC Hts)
    as (b' & E' & Hsz & _ & _ & _ & Hslots).
  rewrite E in E'. injection E' as <-.
  destruct (store_all_inv C obs_dim [] _ ts HC (buf_inv_init C obs_dim act_dim) Hts)
    as (b' & E' & Hb).
  rewrite E in E'. injection E' as <-.
  pose proof (bi_len1 _ _ _ _ Hb) as L1. pose proof (bi_len2 _ _ _ _ Hb) as L2.
  pose proof (bi_lena _ _ _ _ Hb) as La. pose proof (bi_lenr _ _ _ _ Hb) as Lr.
  pose proof (bi_lend _ _ _ _ Hb) as Ld.
  split.
  - intros Hidx.
    assert (HidxC : forall {A} (buf : list A), length buf = C ->
                      Forall (fun i => (i < length buf)%nat) idxs).
    { intros A buf Hl. eapply Forall_impl; [exact Hidx|]. simpl. intros i.
      rewrite Hsz, Hl. lia. }
    destruct (gather_Ok (obs1_buf b) idxs (HidxC _ _ L1)) as (s & Es & Ls & Ks).
    destruct (gather_Ok (obs2_buf b) idxs (HidxC _ _ L2)) as (s2 & Es2 & Ls2 & Ks2).
    destruct (gather_Ok (acts_buf b) idxs (HidxC _ _ La)) as (a & Ea & Lla & Ka).
    destruct (gather_Ok (rews_buf b) idxs (HidxC _ _ Lr)) as (r & Er & Llr & Kr).
    destruct (gather_Ok (done_buf b) idxs (HidxC _ _ Ld)) as (d & Ed & Lld & Kd).
    eexists. unfold sample_batch. rewrite Es, Es2, Ea, Er, Ed. cbn [mbind result_bind].
    split; [reflexivity|]. cbn. repeat split; try done.
    intros k Hk. destruct (lookup_lt_is_Some_2 idxs k Hk) as [i Hi].
    rewrite Forall_lookup in Hidx. pose proof (Hidx _ _ Hi) as Hlt. simpl in Hlt.
    destruct (Hslots i Hlt) as (p & t & Ht & Hr).
    apply read_slot_Ok in Hr as (R1 & R2 & R3 & R4 & R5).
    exists t. split; [by eapply list_elem_of_lookup_2|].
    rewrite (Ks _ _ Hi), (Ks2 _ _ Hi), (Ka _ _ Hi), (Kr _ _ Hi), (Kd _ _ Hi). done.
  - intros (i & Hin & Hi). unfold sample_batch.
    rewrite (gather_out_of_range (obs1_buf b) idxs i Hin) by lia. done.
Qed.
End Sampling.

Lemma X13_witness :
  exists b mb,
    store_all (H := numpy_run) (ReplayBuffer_init 1 3 2)
      [ {| t_obs := [1%float]; t_act := 0; t_rew := 1%float;
           t_next_obs := [2%float]; t_done := false |};
        {| t_obs := [2%float]; t_act := 2; t_rew := 0%float;
           t_next_obs := [3%float]; t_done := true |} ] = Ok b
    /\ sample_batch b [1; 1; 0]%nat = Ok mb
    /\ length (mb_a mb) = 3%nat
    /\ sample_batch b [0; 2]%nat = Raise IndexError.
Proof.
  pose (ts := [ {| t_obs := [1%float]; t_act := 0; t_rew := 1%float;
                   t_next_obs := [2%float]; t_done := false |};
                {| t_obs := [2%float]; t_act := 2; t_rew := 0%float;
                   t_next_obs := [3%float]; t_done := true |} ]).
  assert (Hts : Forall (fun t => length (t_obs t) = 1%nat
                                 /\ length (t_next_obs t) = 1%nat) ts)
    by (repeat constructor).
  assert (E : exists b, store_all (H := numpy_run) (ReplayBuffer_init 1 3 2) ts = Ok b).
  { eexists. vm_compute. reflexivity. }
  destruct E as [b E].
  destruct (X13_sample_batch (H := numpy_run) 2 1 3 ts b [1; 1; 0]%nat
              ltac:(lia) Hts E) as [Hok _].
  destruct (X13_sample_batch (H := numpy_run) 2 1 3 ts b [0; 2]%nat
              ltac:(lia) Hts E) as [_ Herr].
  destruct Hok as (mb & Emb & _ & _ & La & _).
  { vm_compute in E. injection E as <-. repeat constructor. }
  exists b, mb. split; [exact E|]. split; [exact Emb|]. split; [exact La|].
  apply Herr. exists 2%nat. split; [|lia]. apply list_elem_of_further, list_elem_of_here.
Defined.

(** *** Actions in the uint8 array *)

(** X14. The actions array of the buffer holds bytes. For up to five
    units every valid action index is stored unchanged; from six units
    on some valid action index is stored as a different number. *)
Theorem X14_action_fits_uint8 (G : nat) :
  ((G <= 5)%nat -> forall a, a ∈ make_action_space G -> to_uint8 a = a)
  /\ ((6 <= G)%nat -> exists a, a ∈ make_action_space G /\ to_uint8 a <> a).
Proof.
  split.
  - intros HG a Ha. apply elem_of_action_space in Ha.
    assert (Hpow : (3 ^ G <= 3 ^ 5)%nat) by (apply Nat.pow_le_mono_r; lia).
    change (3 ^ 5)%nat with 243%nat in Hpow.
    unfold to_uint8. apply Z.mod_small. lia.
  - intros HG. exists 256. split.
    + apply elem_of_action_space.
      assert (Hpow : (3 ^ 6 <= 3 ^ G)%nat) by (apply Nat.pow_le_mono_r; lia).
      change (3 ^ 6)%nat with 729%nat in Hpow. lia.
    + unfold to_uint8. discriminate.
Qed.

Lemma X14_witness : to_uint8 26 = 26 /\ exists a, a ∈ make_action_space 6 /\ to_uint8 a <> a.
Proof.
  destruct (X14_action_fits_uint8 3) as [Hfit _].
  destruct (X14_action_fits_uint8 6) as [_ Hbig].
  split; [|apply Hbig; lia].
  apply Hfit; [lia|]. apply elem_of_action_space. cbn. lia.
Defined.

(** * Further properties of the agent *)

Section AgentMore.
Context `{NumPy} `{Torch}.

Lemma td_target_total g rewards done q_next :
  length done = length rewards -> length q_next = length rewards ->
  exists ys, td_target g rewards done q_next = Ok ys /\ length ys = length rewards.
Proof.
  revert done q_next. induction rewards as [|r rs IH]; intros [|d ds] [|row rows] Hd Hq;
    simpl in *; try done.
  - by exists [].
  - destruct (IH ds rows) as (ys & -> & Hl); [lia | lia |].
    eexists. split; [reflexivity|]. simpl. by rewrite Hl.
Qed.

Lemma assign_taken_total target_full actions target :
  length actions = length target_full -> length target = length target_full ->
  (forall k row a, target_full !! k = Some row -> actions !! k = Some a ->
     (Z.to_nat a < length row)%nat) ->
  exists T, assign_taken target_full actions target = Ok T.
Proof.
  revert actions target.
  induction target_full as [|row rows IH]; intros [|a acts] [|y ys] Ha Hy Hk;
    simpl in *; try done.
  - by exists [].
  - rewrite setitem_Ok by (apply (Hk 0%nat row a); done). cbn [mbind result_bind].
    destruct (IH acts ys) as (T & ->); [lia | lia | |].
    + intros k row' a' Hr Hac. by apply (Hk (S k)).
    + by eexists.
Qed.

Lemma gather_Forall {A} (P : A -> Prop) (buf : list A) idxs xs :
  Forall P buf -> gather buf idxs = Ok xs -> Forall P xs.
Proof.
  intros HP. revert xs. induction idxs as [|i idxs IH]; intros xs E.
  - simpl in E. injection E as <-. constructor.
  - cbn [gather] in E. apply bind_Ok in E as (x & Ex & E).
    apply bind_Ok in E as (xs' & Exs & E). injection E as <-.
    apply getitem_Ok in Ex. constructor; [|by apply IH].
    rewrite Forall_lookup in HP. by apply (HP _ _ Ex).
Qed.

(** X15. [replay] returns normally, and leaves the buffer, the discount
    and the sizes as they are, when the five arrays of the buffer have
    one length, its observation rows have [state_size] entries, the
    drawn indices are below that length, the stored actions are below
    [action_size], and the model answers a batch of states of that width
    with one row of [action_size] values per state. *)
Theorem X15_replay_returns (self : DQNAgent) (batch_size C : nat) (idxs : list nat) :
  length (obs1_buf (memory self)) = C -> length (obs2_buf (memory self)) = C ->
  length (acts_buf (memory self)) = C -> length (rews_buf (memory self)) = C ->
  length (done_buf (memory self)) = C ->
  Forall (fun row => length row = state_size self) (obs1_buf (memory self)) ->
  Forall (fun row => length row = state_size self) (obs2_buf (memory self)) ->
  Forall (fun i => (i < C)%nat) idxs ->
  Forall (fun a => 0 <= a < Z.of_nat (action_size self)) (acts_buf (memory self)) ->
  (forall states, Forall (fun row => length row = state_size self) states ->
     length (predict (model self) states) = length states
     /\ Forall (fun row => length row = action_size self)
          (predict (model self) states)) ->
  exists self',
    replay self batch_size idxs = Ok self'
    /\ memory self' = memory self /\ gamma self' = gamma self
    /\ state_size self' = state_size self /\ action_size self' = action_size self.
Proof.
  intros L1 L2 La Lr Ld W1 W2 Hidx Hacts Hpred. unfold replay.
  case_bool_decide as Hsz; [by exists self|].
  assert (HidxC : forall {A} (buf : list A), length buf = C ->
                    Forall (fun i => (i < length buf)%nat) idxs).
  { intros A buf Hl. by rewrite Hl. }
  destruct (gather_Ok _ idxs (HidxC _ _ L1)) as (s & Es & Ls & Ks).
  destruct (gather_Ok _ idxs (HidxC _ _ L2)) as (s2 & Es2 & Ls2 & Ks2).
  destruct (gather_Ok _ idxs (HidxC _ _ La)) as (a & Ea & Lla & Ka).
  destruct (gather_Ok _ idxs (HidxC _ _ Lr)) as (r & Er & Llr & Kr).
  destruct (gather_Ok _ idxs (HidxC _ _ Ld)) as (d & Ed & Lld & Kd).
  destruct (Hpred s (gather_Forall _ _ _ _ W1 Es)) as [Hrows Hwidth].
  destruct (Hpred s2 (gather_Forall _ _ _ _ W2 Es2)) as [Hrows2 _].
  unfold sample_batch. rewrite Es, Es2, Ea, Er, Ed. cbn [mbind result_bind].
  unfold replay_target. cbn [mb_r mb_d mb_s2 mb_s mb_a].
  destruct (td_target_total (gamma self) r d (predict (model self) s2))
    as (ys & -> & Lys); [lia | rewrite Hrows2; lia |].
  cbn [mbind result_bind].
  destruct (assign_taken_total (predict (model self) s) a ys) as (T & ->).
  - rewrite Hrows. lia.
  - rewrite Hrows. lia.
  - intros k row x Hrow Hx.
    rewrite Forall_lookup in Hwidth.
    specialize (Hwidth _ _ Hrow). simpl in Hwidth. rewrite Hwidth.
    destruct (lookup_lt_is_Some_2 idxs k) as [i Hi].
    { apply lookup_lt_Some in Hx. lia. }
    rewrite (Ka _ _ Hi) in Hx. rewrite Forall_lookup in Hacts.
    specialize (Hacts _ _ Hx). simpl in Hacts. lia.
  - cbn [mbind result_bind]. eexists. split; [reflexivity|]. done.
Qed.
End AgentMore.

Lemma X15_witness :
  exists self',
    @replay numpy_run torch_run agent_run 1 [0%nat; 0%nat] = Ok self'
    /\ memory self' = memory agent_run.
Proof.
  destruct (@X15_replay_returns numpy_run torch_run agent_run 1 1 [0%nat; 0%nat])
    as (self' & E & Hm & _).
  - reflexivity.
  - reflexivity.
  - reflexivity.
  - reflexivity.
  - reflexivity.
  - repeat constructor.
  - repeat constructor.
  - repeat constructor.
  - repeat constructor; cbn; lia.
  - intros states Hs. split; [reflexivity | exact Hs].
  - exists self'. split; [exact E | exact Hm].
Defined.

(** * The callers: get_scaler, the main block, play_one_episode *)

Lemma step_obs_length fuel env a env' out :
  wf_env env -> step fuel env a = Ok (env', out) ->
  length (out_obs out) = (2 * n_grid env + 1)%nat.
Proof.
  intros Hwf E. by destruct (step_shape fuel env a env' out Hwf E) as (_ & _ & _ & _ & ? & _).
Qed.

(** The collecting loop from an environment with [m] steps left before
    the last row and at least [m] iterations to go. *)
Lemma get_scaler_loop_spec fuel choice (m : nat) :
  forall k i env states,
    wf_env env -> (forall j, choice j ∈ action_space env) ->
    (cur_step env + S m + 1 = n_step env)%nat -> (S m <= k)%nat ->
    get_scaler_loop fuel k i choice env states = OutOfFuel
    \/ exists env' new,
         get_scaler_loop fuel k i choice env states = Ok (env', states ++ new)
         /\ length new = S m
         /\ Forall (fun s => length s = (2 * n_grid env + 1)%nat) new
         /\ wf_env env' /\ same_config env env'
         /\ S (cur_step env') = n_step env.
Proof.
  induction m as [|m IH]; intros k i env states Hwf Hch Hm Hk;
    (destruct k as [|k]; [lia|]); cbn [get_scaler_loop];
    (assert (Hb : (S (cur_step env) < n_step env)%nat) by lia);
    (destruct (step_in_bounds fuel env (choice i) Hwf (Hch i) Hb)
       as [E | (env1 & out & E)]; [rewrite E; by left |]);
    rewrite E; cbn [mbind result_bind];
    destruct (step_shape _ _ _ _ _ Hwf E) as (Hwf1 & Hc1 & _ & _ & Hlen & Hdone);
    pose proof (step_same_config _ _ _ _ _ E) as Hcfg.
  - assert (Hd : out_done out = true) by (apply Hdone; lia). rewrite Hd.
    right. exists env1, [out_obs out].
    split; [done|]. split; [done|]. split; [by constructor|].
    split; [done|]. split; [done|]. lia.
  - assert (Hd : out_done out = false).
    { destruct (out_done out) eqn:Ed; [|done]. pose proof (proj1 Hdone eq_refl). lia. }
    rewrite Hd.
    destruct Hcfg as (Hh & Hn & Hg & Hi & Has & Hal & Hsd).
    destruct (IH k (S i) env1 (states ++ [out_obs out])) as [E1 | (env' & new & E1 & Hl & Hf & Hwf' & Hcfg' & Hc')].
    + done.
    + intros j. rewrite Has. apply Hch.
    + lia.
    + lia.
    + by left.
    + right. exists env', (out_obs out :: new). rewrite E1.
      rewrite <- app_assoc. simpl.
      split; [done|]. split; [by rewrite Hl|].
      split; [constructor; [done | by rewrite <- Hg]|].
      split; [done|]. split; [|lia].
      eapply same_config_trans; [|exact Hcfg']. by repeat split.
Qed.

Lemma get_scaler_cases `{Sklearn} (fuel : nat) (choice : nat -> Z) (env : MultiGridEnv) :
  wf_env env -> cur_step env = 0%nat ->
  (forall j, choice j ∈ action_space env) ->
  (n_step env = 1%nat -> get_scaler fuel choice env = Raise IndexError)
  /\ ((2 <= n_step env)%nat ->
      get_scaler fuel choice env = OutOfFuel
      \/ exists env' states,
           get_scaler fuel choice env = Ok (env', fit states)
           /\ length states = (n_step env - 1)%nat
           /\ Forall (fun s => length s = (2 * n_grid env + 1)%nat) states
           /\ S (cur_step env') = n_step env).
Proof.
  intros Hwf Hc Hch. split.
  - intros Hn. unfold get_scaler. rewrite Hn. cbn [get_scaler_loop].
    rewrite step_out_of_bounds; [done | done | done | lia].
  - intros Hn. unfold get_scaler.
    destruct (get_scaler_loop_spec fuel choice (n_step env - 2) (n_step env) 0 env [])
      as [E | (env' & new & E & Hl & Hf & _ & _ & Hc')];
      [done | done | lia | lia | |].
    + rewrite E. by left.
    + right. exists env', new. rewrite E. simpl.
      split; [done|]. split; [lia|]. split; done.
Qed.

(** X16. [get_scaler] on a freshly built, well-shaped environment: with
    a single row it raises [IndexError]; with two or more rows it does
    not raise, and when it returns it has fitted the scaler on exactly
    [n_step - 1] observations of length [2 * n_grid + 1] and has left the
    environment on its last row. *)
Theorem X16_get_scaler `{Sklearn} (fuel : nat) (choice : nat -> Z) (env : MultiGridEnv) :
  wf_env env -> cur_step env = 0%nat ->
  (forall j, choice j ∈ action_space env) ->
  (n_step env = 1%nat -> get_scaler fuel choice env = Raise IndexError)
  /\ ((2 <= n_step env)%nat ->
      get_scaler fuel choice env = OutOfFuel
      \/ exists env' states,
           get_scaler fuel choice env = Ok (env', fit states)
           /\ length states = (n_step env - 1)%nat
           /\ Forall (fun s => length s = (2 * n_grid env + 1)%nat) states
           /\ S (cur_step env') = n_step env).
Proof. apply get_scaler_cases. Qed.

Lemma X16_witness :
  exists env env' states,
    init [[10; 20]; [12; 18]; [11; 25]] 100 = Ok env
    /\ @get_scaler sklearn_run 200 (fun _ => 8) env = Ok (env', @fit sklearn_run states)
    /\ length states = 2%nat.
Proof.
  assert (E0 : exists env, init [[10; 20]; [12; 18]; [11; 25]] 100 = Ok env)
    by (eexists; vm_compute; reflexivity).
  destruct E0 as [env E0]. exists env.
  assert (Hwf : wf_env env) by (eapply init_wf; [|exact E0]; repeat constructor).
  destruct (@X16_get_scaler sklearn_run 200 (fun _ => 8) env Hwf) as [_ Hok].
  - vm_compute in E0. by injection E0 as <-.
  - intros j. vm_compute in E0. injection E0 as <-.
    apply (proj2 (elem_of_action_space 2 8)). cbn. lia.
  - destruct Hok as [E | (env' & states & E & Hl & _)].
    + vm_compute in E0. injection E0 as <-. cbn. lia.
    + vm_compute in E0. injection E0 as <-. vm_compute in E. discriminate.
    + exists env', states. split; [exact E0|]. split; [exact E|].
      rewrite Hl. vm_compute in E0. by injection E0 as <-.
Defined.

Lemma init_nonempty row rest investment :
  exists env, init (row :: rest) investment = Ok env
              /\ cur_step env = 0%nat /\ n_step env = S (length rest)
              /\ n_grid env = length row.
Proof.
  eexists. split.
  - unfold init, reset. cbn [head default getitem lookup list_lookup mbind result_bind
                            grid_demand_history n_grid].
    rewrite get_obs_wf; cbn; [reflexivity | apply length_replicate | done | done].
  - done.
Qed.

(** X17. The main block builds the training environment on the first
    half of the rows and then calls [get_scaler]; on a rectangular table
    with fewer than four rows this raises [IndexError], and with four or
    more rows it does not raise. *)
Theorem X17_main_needs_four_rows `{Sklearn} (fuel : nat) (choice : nat -> Z)
  (data : list (list Z)) (investment : Z) :
  Forall (fun row => length row = length (default [] (head data))) data ->
  (forall j, choice j ∈ make_action_space (length (default [] (head data)))) ->
  ((length data < 4)%nat -> main_setup fuel choice data investment = Raise IndexError)
  /\ ((4 <= length data)%nat ->
      main_setup fuel choice data investment = OutOfFuel
      \/ exists env' scaler, main_setup fuel choice data investment = Ok (env', scaler)).
Proof.
  intros Hrect Hch. unfold main_setup, train_test_split. cbn [fst].
  destruct (decide (length data / 2 = 0)%nat) as [H0|H0].
  { assert (Hlen : (length data < 2)%nat).
    { destruct (le_lt_dec 2 (length data)) as [Hge|]; [|done].
      pose proof (Nat.Div0.div_le_mono 2 (length data) 2 Hge) as Hd.
      change (2 / 2)%nat with 1%nat in Hd. lia. }
    rewrite H0. split; [done | lia]. }
  destruct data as [|row rest]; [done|]. simpl length in *. simpl head in *.
  simpl default in *.
  remember (S (length rest) / 2)%nat as h eqn:Hh.
  destruct h as [|h]; [done|]. cbn [take].
  destruct (init_nonempty row (take h rest) investment) as (env & E & Hc & Hn & Hg).
  rewrite E. cbn [mbind result_bind].
  assert (Hwf : wf_env env).
  { eapply init_wf; [|exact E]. simpl. apply Forall_cons in Hrect as [Hr Hrest].
    constructor; [done|]. by apply Forall_take. }
  assert (Hsp : forall j, choice j ∈ action_space env).
  { intros j. rewrite (wf_action_space _ Hwf), Hg. apply Hch. }
  destruct (get_scaler_cases fuel choice env Hwf Hc Hsp) as [H1 H2].
  assert (Hle : (h <= length rest)%nat).
  { pose proof (Nat.Div0.div_le_upper_bound (S (length rest)) 2 (S (length rest))).
    pose proof (Nat.div_mod_eq (S (length rest)) 2). lia. }
  rewrite length_take in Hn.
  pose proof (Nat.div_mod_eq (S (length rest)) 2) as Hdm.
  pose proof (Nat.mod_upper_bound (S (length rest)) 2 ltac:(lia)) as Hmb.
  split.
  - intros Hlt. apply H1. lia.
  - intros Hge. destruct H2 as [E2 | (env' & states & E2 & _)]; [lia | by left |].
    right. by eexists _, _.
Qed.

Lemma X17_witness :
  @main_setup sklearn_run 200 (fun _ => 8) [[10; 20]; [12; 18]; [11; 25]] 100
  = Raise IndexError.
Proof.
  apply (@X17_main_needs_four_rows sklearn_run 200 (fun _ => 8)
           [[10; 20]; [12; 18]; [11; 25]] 100).
  - repeat constructor.
  - intros j. apply (proj2 (elem_of_action_space 2 8)). cbn. lia.
  - simpl. lia.
Defined.

(** ** play_one_episode *)

Section Episode.
Context `{NumPy} `{Torch} `{NumPyArgmax} `{Sklearn}.

Lemma store_size (b : ReplayBuffer) t b' :
  store b t = Ok b' ->
  size b' = ((size b + 1) `min` max_size b)%nat /\ max_size b' = max_size b.
Proof.
  unfold store. intros E.
  apply bind_Ok in E as (o1 & _ & E). apply bind_Ok in E as (o2 & _ & E).
  apply bind_Ok in E as (ac & _ & E). apply bind_Ok in E as (rw & _ & E).
  apply bind_Ok in E as (dn & _ & E). by injection E as <-.
Qed.

Lemma replay_memory (self : DQNAgent) batch_size idxs self' :
  replay self batch_size idxs = Ok self' -> memory self' = memory self.
Proof.
  unfold replay. case_bool_decide; [by intros [= <-]|]. intros E.
  apply bind_Ok in E as (mb & _ & E). apply bind_Ok in E as (T & _ & E).
  by injection E as <-.
Qed.

Lemma episode_loop_spec fuel scaler batch_size rnd is_train (k : nat) :
  forall i agent env state agent' env' v,
    wf_env env ->
    episode_loop k fuel scaler batch_size rnd is_train i agent env state
    = Ok (agent', env', v) ->
    S (cur_step env') = n_step env /\ wf_env env' /\ same_config env env'
    /\ v = portfolio_value env'
    /\ (is_train <> "train"%string -> agent' = agent)
    /\ (is_train = "train"%string ->
        (size (memory agent) <= max_size (memory agent))%nat ->
        max_size (memory agent') = max_size (memory agent)
        /\ size (memory agent')
           = ((size (memory agent) + (n_step env - 1 - cur_step env))
                `min` max_size (memory agent))%nat).
Proof.
  induction k as [|k IH]; intros i agent env state agent' env' v Hwf E; [done|].
  cbn [episode_loop] in E.
  apply bind_Ok in E as (action & Ea & E).
  apply bind_Ok in E as ([env1 out] & Es & E).
  apply bind_Ok in E as (agent1 & Eg & E).
  destruct (step_shape _ _ _ _ _ Hwf Es) as (Hwf1 & Hc1 & _ & _ & _ & Hdone).
  pose proof (step_same_config _ _ _ _ _ Es) as Hcfg.
  pose proof (step_value _ _ _ _ _ Es) as (_ & Hval & _).
  assert (Hag : (is_train <> "train"%string -> agent1 = agent)
                /\ (is_train = "train"%string ->
                    max_size (memory agent1) = max_size (memory agent)
                    /\ size (memory agent1)
                       = ((size (memory agent) + 1) `min` max_size (memory agent))%nat)).
  { case_bool_decide as Ht.
    - split; [done|]. intros _.
      apply bind_Ok in Eg as (a1 & Eu & Er).
      apply replay_memory in Er. rewrite Er.
      unfold update_replay_memory in Eu. apply bind_Ok in Eu as (m & Em & Eu).
      injection Eu as <-. cbn. apply store_size in Em as [-> ->]. done.
    - injection Eg as <-. done. }
  destruct Hag as [Htest Htrain].
  destruct (out_done out) eqn:Ed.
  - injection E as <- <- <-. pose proof (proj1 Hdone eq_refl) as Hlast.
    split; [done|]. split; [done|]. split; [done|]. split; [done|].
    split; [done|]. intros Ht Hsz. destruct (Htrain Ht) as [Hm Hs].
    split; [done|]. rewrite Hs. lia.
  - apply IH in E as (Hlast & Hwf' & Hcfg' & Hv & Htest' & Htrain'); [|done].
    destruct Hcfg as (Hh & Hn & Hg & Hi & Has & Hal & Hsd).
    assert (Hnl : S (cur_step env1) <> n_step env).
    { intros Heq. apply Hdone in Heq. congruence. }
    pose proof (wf_cur_step _ Hwf1) as Hlt.
    split; [congruence|]. split; [done|].
    split; [eapply same_config_trans; [|exact Hcfg']; by repeat split|].
    split; [done|]. split.
    + intros Ht. rewrite (Htest' Ht). by apply Htest.
    + intros Ht Hsz. destruct (Htrain Ht) as [Hm Hs].
      destruct (Htrain' Ht) as [Hm' Hs']; [rewrite Hs, Hm; lia|].
      split; [congruence|]. rewrite Hs', Hs, Hm, Hn, Hc1. lia.
Qed.

(** X18. An episode that returns has left the environment on the last
    row, in the same configuration, and returns the portfolio value
    there. In any mode other than ["train"] the agent comes back
    unchanged: nothing is stored and nothing is learned. In mode
    ["train"] the buffer keeps its capacity and its size has grown by the
    [n_step - 1] steps of the episode, up to the capacity. *)
Theorem X18_play_one_episode (k fuel : nat) (scaler : StandardScaler)
  (batch_size : nat) (rnd : nat -> draw) (agent : DQNAgent) (env : MultiGridEnv)
  (is_train : string) (agent' : DQNAgent) (env' : MultiGridEnv) (v : Z) :
  wf_env env ->
  (size (memory agent) <= max_size (memory agent))%nat ->
  play_one_episode k fuel scaler batch_size rnd agent env is_train
  = Ok (agent', env', v) ->
  S (cur_step env') = n_step env /\ same_config env env'
  /\ v = portfolio_value env'
  /\ (is_train <> "train"%string -> agent' = agent)
  /\ (is_train = "train"%string ->
      max_size (memory agent') = max_size (memory agent)
      /\ size (memory agent')
         = ((size (memory agent) + (n_step env - 1)) `min` max_size (memory agent))%nat).
Proof.
  intros Hwf Hsz E. unfold play_one_episode in E.
  apply bind_Ok in E as ([env0 state] & Er & E).
  pose proof (reset_wf _ _ _ Hwf Er) as Hwf0.
  pose proof (reset_same_config _ _ _ Er) as Hcfg0.
  apply reset_Ok in Er as (row & _ & _ & Hn0 & _ & _ & Hc0 & _).
  apply episode_loop_spec in E as (Hlast & _ & Hcfg & Hv & Htest & Htrain); [|done].
  split; [congruence|]. split; [by eapply same_config_trans|].
  split; [done|]. split; [done|].
  intros Ht. destruct (Htrain Ht Hsz) as [Hm Hs]. split; [done|].
  rewrite Hs, Hn0, Hc0. lia.
Qed.
End Episode.

Lemma X18_witness :
  exists env agent' env' v,
    init [[10; 20]; [12; 18]; [11; 25]] 100 = Ok env
    /\ @play_one_episode numpy_run torch_run argmax_run sklearn_run 5 200 tt 1
         (fun _ => {| d_rand := 0.5%float; d_choice := 2; d_idxs := [0%nat] |})
         (@DQNAgent_init torch_run 5 9) env "train"
       = Ok (agent', env', v)
    /\ v = portfolio_value env'
    /\ size (memory agent') = 2%nat.
Proof.
  assert (E0 : exists env, init [[10; 20]; [12; 18]; [11; 25]] 100 = Ok env)
    by (eexists; vm_compute; reflexivity).
  destruct E0 as [env E0]. exists env.
  assert (Hwf : wf_env env) by (eapply init_wf; [|exact E0]; repeat constructor).
  assert (Hn : n_step env = 3%nat).
  { apply init_Ok in E0 as (row & _ & _ & Hn & _). exact Hn. }
  assert (E : exists r, @play_one_episode numpy_run torch_run argmax_run sklearn_run
                5 200 tt 1
                (fun _ => {| d_rand := 0.5%float; d_choice := 2; d_idxs := [0%nat] |})
                (@DQNAgent_init torch_run 5 9) env "train" = Ok r).
  { vm_compute in E0. injection E0 as <-. eexists. vm_compute. reflexivity. }
  destruct E as [[[agent' env'] v] E]. exists agent', env', v.
  assert (Hsz : (size (memory (@DQNAgent_init torch_run 5 9))
                 <= max_size (memory (@DQNAgent_init torch_run 5 9)))%nat)
    by (vm_compute; lia).
  destruct (@X18_play_one_episode numpy_run torch_run argmax_run sklearn_run
              5 200 tt 1 _ _ env "train" agent' env' v Hwf Hsz E)
    as (_ & _ & Hv & _ & Htrain).
  split; [exact E0|]. split; [exact E|]. split; [exact Hv|].
  destruct (Htrain eq_refl) as [_ Hs]. rewrite Hs, Hn. reflexivity.
Defined.

(** ** get_scaler returns *)





